(** * fs_mgr_format: formatting and resizing of partitions

    A shallow embedding of [fs_mgr/fs_mgr_format.cpp].  The file builds
    command lines for the external utilities mke2fs, e2fsdroid, make_f2fs,
    newfs_msdos and resize.f2fs, and reads the f2fs superblock to decide
    whether a resize is needed.

    Every interaction with the operating system (open, ioctl, pread,
    access, property lookup, process execution) is a node of a finite
    tree of system calls; the C++ control flow is the shape of that
    tree.  A kernel is any function that answers system calls while
    threading its own state, so that theorems quantify over every
    behaviour of the environment.

    Conventions:
    - [uint64_t] values are integers of [Z] in the range [0, 2^64), and
      every subtraction, addition and product of them is followed by
      [wrap64];
    - [int] results (file descriptors, exit statuses, errno codes) are
      integers of [Z], they are only compared, never computed with;
    - log statements (LERROR, LINFO, PERROR) are left out: they return
      nothing and do not influence control flow. *)

From Stdlib Require Import ZArith List String Ascii Bool Lia DecimalString.
From Stdlib.Strings Require Import Byte.
Import ListNotations.

Open Scope string_scope.
Open Scope list_scope.
Open Scope Z_scope.

Set Implicit Arguments.

(** ** Machine integers and decimal rendering *)

(** Reduction of an integer to [uint64_t]. *)
Definition wrap64 (z : Z) : Z := z mod 2 ^ 64.

(** [std::to_string] on an integer: its decimal digits, most significant
    first, with a leading minus sign for a negative number (never the case
    for a [uint64_t]). *)
Definition to_string (n : Z) : string := NilZero.string_of_int (Z.to_int n).

(** ** Constants *)

(** [#define F2FS_BLKSIZE 4096] *)
Definition F2FS_BLKSIZE : Z := 4096.

(** [#define F2FS_SUPER_OFFSET 1024] *)
Definition F2FS_SUPER_OFFSET : Z := 1024.

(** [F2FS_SUPER_MAGIC] of <linux/magic.h>. *)
Definition F2FS_SUPER_MAGIC : Z := 0xF2F52010.

(** [EINVAL] of <errno.h>. *)
Definition EINVAL : Z := 22.

(** ** The on-disk superblock

    [struct f2fs_super_block], packed: the fields lie at byte offsets
    0, 4, 6, 8, 32 and 36, and the structure is 44 bytes long. *)
Record f2fs_super_block : Type := {
  magic : Z;            (* __le32 *)
  major_ver : Z;        (* __le16 *)
  minor_ver : Z;        (* __le16 *)
  empty : list Z;       (* __le32 [6] *)
  checksum_offset : Z;  (* __le32 *)
  block_count : Z       (* __le64 *)
}.

(** [sizeof(struct f2fs_super_block)] *)
Definition sizeof_f2fs_super_block : Z := 4 + 2 + 2 + 4 * 6 + 4 + 8.

(** Value of a sequence of bytes read as a little-endian unsigned number. *)
Fixpoint le_value (bs : list byte) : Z :=
  match bs with
  | [] => 0
  | b :: rest => Z.of_N (Byte.to_N b) + 256 * le_value rest
  end.

(** The bytes of [buf] at offsets [off .. off + len - 1]. *)
Definition bytes_at (off len : nat) (buf : list byte) : list byte :=
  firstn len (skipn off buf).

(** The structure whose memory holds the bytes [buf], as [pread] leaves it
    after a complete read.  The host is little-endian (as every Android
    target is), so a field's value is the little-endian value of its
    bytes and [cpu_to_le32] is the identity. *)
Definition overlay_f2fs_super_block (buf : list byte) : f2fs_super_block := {|
  magic := le_value (bytes_at 0 4 buf);
  major_ver := le_value (bytes_at 4 2 buf);
  minor_ver := le_value (bytes_at 6 2 buf);
  empty := map (fun i => le_value (bytes_at (8 + 4 * i) 4 buf)) (seq 0 6);
  checksum_offset := le_value (bytes_at 32 4 buf);
  block_count := le_value (bytes_at 36 8 buf)
|}.

Definition cpu_to_le32 (x : Z) : Z := x.

(** ** System calls *)

(** The requests the file makes to its environment.  The answer to a call
    under TEMP_FAILURE_RETRY is the one that ends the retries. *)
Inductive Syscall : Type :=
| sys_open (path : string)                 (* open(path, O_RDONLY | O_CLOEXEC) *)
| sys_close (fd : Z)                       (* close(fd), from ~unique_fd *)
| sys_ioctl_BLKGETSIZE64 (fd : Z)          (* ioctl(fd, BLKGETSIZE64, &sz) *)
| sys_pread (fd : Z) (count offset : Z)    (* pread(fd, buf, count, offset) *)
| sys_access_X_OK (path : string)          (* access(path, X_OK) *)
| GetBoolProperty (key : string) (default_value : bool)
| logwrap_fork_execvp (argv : list string).

(** What the environment answers:
    - [open]: the descriptor, negative on failure;
    - [ioctl BLKGETSIZE64]: [None] for the result -1, [Some sz] for the
      result 0 with [sz] stored through the pointer;
    - [pread]: [None] for the result -1, [Some bs] when [length bs] bytes
      were read, and those bytes;
    - [access], [logwrap_fork_execvp]: the integer result. *)
Definition Answer (c : Syscall) : Type :=
  match c with
  | sys_open _ => Z
  | sys_close _ => unit
  | sys_ioctl_BLKGETSIZE64 _ => option Z
  | sys_pread _ _ _ => option (list byte)
  | sys_access_X_OK _ => Z
  | GetBoolProperty _ _ => bool
  | logwrap_fork_execvp _ => Z
  end.

(** A program: it returns, or makes a system call and continues with the
    answer. *)
Inductive Prog (A : Type) : Type :=
| Ret (a : A)
| Call (c : Syscall) (k : Answer c -> Prog A).

Arguments Ret {A} a.
Arguments Call {A} c k.

Fixpoint bind {A B : Type} (p : Prog A) (f : A -> Prog B) : Prog B :=
  match p with
  | Ret a => f a
  | Call c k => Call c (fun r => bind (k r) f)
  end.

Definition call (c : Syscall) : Prog (Answer c) := Call c (fun r => Ret r).

Notation "x <- p ;; q" := (bind p (fun x => q))
  (at level 61, p at next level, right associativity).
Notation "p ;; q" := (bind p (fun _ => q))
  (at level 61, right associativity).
Notation "' pat <- p ;; q" := (bind p (fun x => let 'pat := x in q))
  (at level 61, pat pattern, p at next level, right associativity).

(** ** Running a program against a kernel *)

(** A kernel with states [S] answers every system call and moves to a
    new state. *)
Definition Kernel (S : Type) : Type := forall c : Syscall, S -> Answer c * S.

(** One spawned process: its argument vector and its exit status. *)
Definition Spawn : Type := (list string * Z)%type.

Record Outcome (S A : Type) : Type := {
  result : A;               (* the value returned *)
  final : S;                (* the state the kernel is left in *)
  spawned : list Spawn      (* the processes run, in order *)
}.

Definition note_spawn (c : Syscall) : Answer c -> list Spawn :=
  match c with
  | logwrap_fork_execvp argv => fun rc => [(argv, rc)]
  | _ => fun _ => []
  end.

Fixpoint run {S A : Type} (K : Kernel S) (p : Prog A) (s : S) : Outcome S A :=
  match p with
  | Ret a => {| result := a; final := s; spawned := [] |}
  | Call c k =>
      let '(r, s1) := K c s in
      let o := run K (k r) s1 in
      {| result := result o; final := final o;
         spawned := note_spawn c r ++ spawned o |}
  end.

(** ** The functions of fs_mgr_format.cpp *)

(** [~unique_fd]: the descriptor is closed unless it is -1. *)
Definition unique_fd_release (fd : Z) : Prog unit :=
  if fd =? -1 then Ret tt else call (sys_close fd).

Record FsMgrFlags : Type := {
  fs_compress : bool;
  ext_meta_csum : bool
}.

(** The fields of [FstabEntry] the file reads. *)
Record FstabEntry : Type := {
  blk_device : string;
  mount_point : string;
  fs_type : string;
  length : Z;
  fs_mgr_flags : FsMgrFlags
}.

(** [get_dev_sz(fs_blkdev, &dev_sz)]: the pair of the result and of the
    content of [*dev_sz] afterwards; [dev_sz] is its content before. *)
Definition get_dev_sz (fs_blkdev : string) (dev_sz : Z) : Prog (Z * Z) :=
  fd <- call (sys_open fs_blkdev) ;;
  if fd <? 0 then
    unique_fd_release fd ;;
    Ret (-1, dev_sz)
  else
    sz <- call (sys_ioctl_BLKGETSIZE64 fd) ;;
    match sz with
    | None =>
        unique_fd_release fd ;;
        Ret (-1, dev_sz)
    | Some v =>
        unique_fd_release fd ;;
        Ret (0, v)
    end.

Section Format.

(** [CRYPT_FOOTER_OFFSET] comes from cryptfs.h, which is not part of this
    file; the development holds for any value of it. *)
Variable CRYPT_FOOTER_OFFSET : Z.

(** [if (crypt_footer) dev_sz -= CRYPT_FOOTER_OFFSET;] *)
Definition drop_crypt_footer (crypt_footer : bool) (dev_sz : Z) : Z :=
  if crypt_footer then wrap64 (dev_sz - CRYPT_FOOTER_OFFSET) else dev_sz.

(** The vector [mke2fs_args] at the call of [logwrap_fork_execvp]. *)
Definition mke2fs_args (fs_blkdev size_str : string)
    (needs_projid needs_metadata_csum : bool) : list string :=
  ["/system/bin/mke2fs"; "-t"; "ext4"; "-b"; "4096"]
  ++ (if needs_projid then ["-I"; "512"] else [])
  ++ (if needs_metadata_csum
      then ["-O"; "metadata_csum"; "-O"; "64bit"; "-O"; "extent"] else [])
  ++ [fs_blkdev; size_str].

(** The array [e2fsdroid_args], up to its terminating [nullptr]. *)
Definition e2fsdroid_args (fs_mnt_point fs_blkdev : string) : list string :=
  ["/system/bin/e2fsdroid"; "-e"; "-a"; fs_mnt_point; fs_blkdev].

(** The local [dev_sz] is not initialised before [get_dev_sz] fills it;
    it is read only after a success, so that its first content (0 here)
    does not matter. *)
Definition format_ext4 (fs_blkdev fs_mnt_point : string)
    (crypt_footer needs_projid needs_metadata_csum : bool) : Prog Z :=
  '(rc, dev_sz) <- get_dev_sz fs_blkdev 0 ;;
  if negb (rc =? 0) then Ret rc
  else
    let dev_sz := drop_crypt_footer crypt_footer dev_sz in
    let size_str := to_string (dev_sz / 4096) in
    rc <- call (logwrap_fork_execvp
                  (mke2fs_args fs_blkdev size_str needs_projid needs_metadata_csum)) ;;
    if negb (rc =? 0) then Ret rc
    else
      rc <- call (logwrap_fork_execvp (e2fsdroid_args fs_mnt_point fs_blkdev)) ;;
      Ret rc.

(** The vector [args] of [format_f2fs] at the call of
    [logwrap_fork_execvp]. *)
Definition make_f2fs_args (fs_blkdev size_str : string)
    (needs_projid needs_casefold fs_compress : bool) : list string :=
  ["/system/bin/make_f2fs"; "-g"; "android"]
  ++ (if needs_projid then ["-O"; "project_quota,extra_attr"] else [])
  ++ (if needs_casefold then ["-O"; "casefold"; "-C"; "utf8"] else [])
  ++ (if fs_compress then ["-O"; "compression"; "-O"; "extra_attr"] else [])
  ++ [fs_blkdev; size_str].

(** The part of [format_f2fs] after the device size is known. *)
Definition format_f2fs_sized (fs_blkdev : string) (dev_sz : Z)
    (crypt_footer needs_projid needs_casefold fs_compress : bool) : Prog Z :=
  let dev_sz := drop_crypt_footer crypt_footer dev_sz in
  let size_str := to_string (dev_sz / 4096) in
  call (logwrap_fork_execvp
          (make_f2fs_args fs_blkdev size_str needs_projid needs_casefold fs_compress)).

Definition format_f2fs (fs_blkdev : string) (dev_sz : Z)
    (crypt_footer needs_projid needs_casefold fs_compress : bool) : Prog Z :=
  if dev_sz =? 0 then
    '(rc, dev_sz) <- get_dev_sz fs_blkdev dev_sz ;;
    if negb (rc =? 0) then Ret rc
    else format_f2fs_sized fs_blkdev dev_sz crypt_footer needs_projid
           needs_casefold fs_compress
  else
    format_f2fs_sized fs_blkdev dev_sz crypt_footer needs_projid
      needs_casefold fs_compress.

Definition newfs_msdos_args (fs_blkdev : string) : list string :=
  ["/system/bin/newfs_msdos"; "-O"; "android"; fs_blkdev].

Definition format_vfat (fs_blkdev : string) : Prog Z :=
  call (sys_access_X_OK "/system/bin/newfs_msdos") ;;
  call (logwrap_fork_execvp (newfs_msdos_args fs_blkdev)).

(** [entry.length] reaches the [uint64_t] parameter [dev_sz] of
    [format_f2fs] and [resize_f2fs] through an integral conversion. *)
Definition fs_mgr_do_format (entry : FstabEntry) (crypt_footer : bool) : Prog Z :=
  '(needs_casefold, needs_projid) <-
    (if String.eqb (mount_point entry) "/data" then
       needs_casefold <- call (GetBoolProperty "external_storage.casefold.enabled" false) ;;
       needs_projid <- call (GetBoolProperty "external_storage.projid.enabled" false) ;;
       Ret (needs_casefold, needs_projid)
     else Ret (false, false)) ;;
  if String.eqb (fs_type entry) "f2fs" then
    format_f2fs (blk_device entry) (wrap64 (length entry)) crypt_footer
      needs_projid needs_casefold (fs_compress (fs_mgr_flags entry))
  else if String.eqb (fs_type entry) "ext4" then
    format_ext4 (blk_device entry) (mount_point entry) crypt_footer
      needs_projid (ext_meta_csum (fs_mgr_flags entry))
  else if String.eqb (fs_type entry) "vfat" then
    format_vfat (blk_device entry)
  else
    Ret (- EINVAL).

(** [pread(...) != sizeof sb] is false exactly for a complete read. *)
Definition complete_read (r : option (list byte)) : option (list byte) :=
  match r with
  | Some buf =>
      if Z.of_nat (List.length buf) =? sizeof_f2fs_super_block then Some buf else None
  | None => None
  end.

(** [read_f2fs_sb(blk_device, &sb)]: [Some sb] when the function returns
    true, with the content of [*sb]; [None] when it returns false (the
    caller does not read [*sb] then). *)
Definition read_f2fs_sb (blk_device : string) : Prog (option f2fs_super_block) :=
  fd <- call (sys_open blk_device) ;;
  r <- call (sys_pread fd sizeof_f2fs_super_block F2FS_SUPER_OFFSET) ;;
  match complete_read r with
  | None =>
      unique_fd_release fd ;;
      Ret None
  | Some buf =>
      let sb := overlay_f2fs_super_block buf in
      if magic sb =? cpu_to_le32 F2FS_SUPER_MAGIC then
        unique_fd_release fd ;;
        Ret (Some sb)
      else
        r <- call (sys_pread fd sizeof_f2fs_super_block
                     (F2FS_BLKSIZE + F2FS_SUPER_OFFSET)) ;;
        match complete_read r with
        | None =>
            unique_fd_release fd ;;
            Ret None
        | Some buf =>
            let sb := overlay_f2fs_super_block buf in
            unique_fd_release fd ;;
            Ret (if magic sb =? cpu_to_le32 F2FS_SUPER_MAGIC then Some sb else None)
        end
  end.

Definition get_f2fs_size (blk_device : string) : Prog Z :=
  sb <- read_f2fs_sb blk_device ;;
  match sb with
  | Some sb => Ret (wrap64 (block_count sb * F2FS_BLKSIZE))
  | None => Ret 0
  end.

Definition resize_f2fs_args (size_str fs_blkdev : string) : list string :=
  ["/system/bin/resize.f2fs"; "-t"; size_str; fs_blkdev].

(** The part of [resize_f2fs] after the device size is known. *)
Definition resize_f2fs_sized (fs_blkdev : string) (dev_sz : Z)
    (crypt_footer : bool) : Prog Z :=
  let dev_sz := drop_crypt_footer crypt_footer dev_sz in
  f2fs_sz <- get_f2fs_size fs_blkdev ;;
  if (f2fs_sz <=? 0) || (dev_sz <=? wrap64 (f2fs_sz + 4096 * 1024)) then
    Ret 0
  else
    let size_str := to_string (dev_sz / 512) in
    call (logwrap_fork_execvp (resize_f2fs_args size_str fs_blkdev)).

Definition resize_f2fs (fs_blkdev : string) (dev_sz : Z)
    (crypt_footer : bool) : Prog Z :=
  if dev_sz =? 0 then
    '(rc, dev_sz) <- get_dev_sz fs_blkdev dev_sz ;;
    if negb (rc =? 0) then Ret rc
    else resize_f2fs_sized fs_blkdev dev_sz crypt_footer
  else
    resize_f2fs_sized fs_blkdev dev_sz crypt_footer.

Definition fs_mgr_do_resize (entry : FstabEntry) (crypt_footer : bool) : Prog Z :=
  if String.eqb (fs_type entry) "f2fs" then
    resize_f2fs (blk_device entry) (wrap64 (length entry)) crypt_footer
  else
    Ret (- EINVAL).

End Format.

(** ** A test bench

    A concrete kernel with one block device, used to evaluate the
    functions on explicit inputs. *)
Module Bench.

Record Board : Type := {
  device : string;                  (* the path of the block device *)
  openable : bool;                  (* whether open succeeds on it *)
  reported_size : option Z;         (* the answer to BLKGETSIZE64 *)
  image : list byte;                (* its content, as far as it is read *)
  property : string -> bool -> bool;
  exit_status : list string -> Z
}.

(** Descriptor 3 is the device; the kernel has no state of its own. *)
Definition kernel (b : Board) : Kernel unit :=
  fun c s =>
    match c return Answer c * unit with
    | sys_open path =>
        (if openable b && String.eqb path (device b) then 3 else -1, s)
    | sys_close _ => (tt, s)
    | sys_ioctl_BLKGETSIZE64 fd =>
        (if fd =? 3 then reported_size b else None, s)
    | sys_pread fd count offset =>
        (if fd =? 3
         then Some (firstn (Z.to_nat count) (skipn (Z.to_nat offset) (image b)))
         else None, s)
    | sys_access_X_OK _ => (0, s)
    | GetBoolProperty key default_value => (property b key default_value, s)
    | logwrap_fork_execvp argv => (exit_status b argv, s)
    end.

Definition byte_of (z : Z) : byte :=
  match Byte.of_N (Z.to_N (z mod 256)) with
  | Some b => b
  | None => x00
  end.

(** The [n] low bytes of [z], least significant first. *)
Fixpoint le_bytes (n : nat) (z : Z) : list byte :=
  match n with
  | O => []
  | S n' => byte_of z :: le_bytes n' (z / 256)
  end.

(** A superblock record with the given magic and block count, the other
    fields zero. *)
Definition superblock_bytes (mg blocks : Z) : list byte :=
  le_bytes 4 mg ++ repeat x00 32 ++ le_bytes 8 blocks.

(** A device image with the records [first] and [second] at the byte
    offsets 1024 and 4096 + 1024. *)
Definition image_of (first second : list byte) : list byte :=
  repeat x00 1024 ++ first ++ repeat x00 (Z.to_nat (4096 - 44)) ++ second.

Definition no_property (key : string) (default_value : bool) : bool := default_value.

Definition all_succeed (argv : list string) : Z := 0.

(** A 1 GiB device without a filesystem. *)
Definition blank : Board := {|
  device := "/dev/x";
  openable := true;
  reported_size := Some 1073741824;
  image := repeat x00 (Z.to_nat 8192);
  property := no_property;
  exit_status := all_succeed
|}.

(** A device that cannot be opened. *)
Definition unopenable : Board := {|
  device := "/dev/x";
  openable := false;
  reported_size := None;
  image := [];
  property := no_property;
  exit_status := all_succeed
|}.

(** A 1 GiB device holding an f2fs of [blocks] blocks, both superblock
    copies valid. *)
Definition with_f2fs (blocks : Z) : Board := {|
  device := "/dev/x";
  openable := true;
  reported_size := Some 1073741824;
  image := image_of (superblock_bytes F2FS_SUPER_MAGIC blocks)
                    (superblock_bytes F2FS_SUPER_MAGIC blocks);
  property := no_property;
  exit_status := all_succeed
|}.

(** A device without a filesystem that does not answer BLKGETSIZE64 (a
    regular file, say). *)
Definition unsized : Board := {|
  device := "/dev/x";
  openable := true;
  reported_size := None;
  image := repeat x00 (Z.to_nat 8192);
  property := no_property;
  exit_status := all_succeed
|}.

(** A device of [sz] bytes without a filesystem. *)
Definition sized (sz : Z) : Board := {|
  device := "/dev/x";
  openable := true;
  reported_size := Some sz;
  image := repeat x00 (Z.to_nat sz);
  property := no_property;
  exit_status := all_succeed
|}.

(** A device without a filesystem that reports [sz] bytes; of its content
    only the first 8192 bytes are given. *)
Definition reporting (sz : Z) : Board := {|
  device := "/dev/x";
  openable := true;
  reported_size := Some sz;
  image := repeat x00 (Z.to_nat 8192);
  property := no_property;
  exit_status := all_succeed
|}.

(** A device of 4096 bytes that begins like an f2fs of [blocks] blocks:
    only the superblock at offset 1024 fits. *)
Definition small_with_f2fs (blocks : Z) : Board := {|
  device := "/dev/x";
  openable := true;
  reported_size := Some 4096;
  image := firstn (Z.to_nat 4096)
             (image_of (superblock_bytes F2FS_SUPER_MAGIC blocks)
                       (superblock_bytes F2FS_SUPER_MAGIC blocks));
  property := no_property;
  exit_status := all_succeed
|}.

(** The value of [CRYPT_FOOTER_OFFSET] in cryptfs.h. *)
Definition footer : Z := 0x4000.

(** Exit statuses where mke2fs fails with 1 and every other program
    succeeds. *)
Definition mke2fs_fails (argv : list string) : Z :=
  if String.eqb (hd "" argv) "/system/bin/mke2fs" then 1 else 0.

(** The blank device on a system where mke2fs fails. *)
Definition blank_mke2fs_failing : Board := {|
  device := "/dev/x";
  openable := true;
  reported_size := Some 1073741824;
  image := repeat x00 (Z.to_nat 8192);
  property := no_property;
  exit_status := mke2fs_fails
|}.

(** Exit statuses where e2fsdroid fails with 2 and every other program
    succeeds. *)
Definition e2fsdroid_fails (argv : list string) : Z :=
  if String.eqb (hd "" argv) "/system/bin/e2fsdroid" then 2 else 0.

(** The blank device on a system where e2fsdroid fails. *)
Definition blank_e2fsdroid_failing : Board := {|
  device := "/dev/x";
  openable := true;
  reported_size := Some 1073741824;
  image := repeat x00 (Z.to_nat 8192);
  property := no_property;
  exit_status := e2fsdroid_fails
|}.

(** An entry for the device of the bench. *)
Definition entry (mnt type : string) (len : Z) : FstabEntry := {|
  blk_device := "/dev/x";
  mount_point := mnt;
  fs_type := type;
  length := len;
  fs_mgr_flags := {| fs_compress := false; ext_meta_csum := false |}
|}.

(** Property lookups that all answer [b]. *)
Definition answering (b : bool) (key : string) (default_value : bool) (s : unit) :
    bool * unit := (b, s).

End Bench.

(** ** The superblock lookup, in the words of the specification

    The record at byte offset 1024 is accepted when its first four bytes
    are the f2fs magic, little-endian; otherwise the record at offset
    4096 + 1024 is, under the same condition.  A read that is not complete
    ends the lookup without a record. *)

Definition magic_bytes : list byte := [x10; x20; xf5; xf2].

Fixpoint same_bytes (a b : list byte) : bool :=
  match a, b with
  | [], [] => true
  | x :: a', y :: b' => Byte.eqb x y && same_bytes a' b'
  | _, _ => false
  end.

Definition has_f2fs_magic (record : list byte) : bool :=
  same_bytes (bytes_at 0 4 record) magic_bytes.

(** The eight bytes of the block count, at offset 36 of the record. *)
Definition block_count_field (record : list byte) : Z :=
  le_value (bytes_at 36 8 record).

Definition accepted_record (first second : option (list byte)) : option (list byte) :=
  match complete_read first with
  | None => None
  | Some record1 =>
      if has_f2fs_magic record1 then Some record1
      else
        match complete_read second with
        | None => None
        | Some record2 => if has_f2fs_magic record2 then Some record2 else None
        end
  end.

(** ** The size a format or a resize works with *)

(** [format_f2fs] and [resize_f2fs] begin alike: a declared length other
    than 0 is the size, and for 0 the size is read from the device.
    [dev_sz_resolved K blk declared s dev_sz s1]: from the state [s] this
    beginning succeeds with the size [dev_sz] and leaves the kernel in the
    state [s1]. *)
Definition dev_sz_resolved {S : Type} (K : Kernel S) (fs_blkdev : string)
    (declared : Z) (s : S) (dev_sz : Z) (s1 : S) : Prop :=
  (declared <> 0 /\ dev_sz = declared /\ s1 = s)
  \/ (declared = 0 /\
      result (run K (get_dev_sz fs_blkdev 0) s) = (0, dev_sz) /\
      final (run K (get_dev_sz fs_blkdev 0) s) = s1).

(** A kernel answers -1 (EBADF) to a read from a negative descriptor. *)
Definition refuses_bad_descriptors {S : Type} (K : Kernel S) : Prop :=
  forall (fd count offset : Z) (s : S),
    fd < 0 -> fst (K (sys_pread fd count offset) s) = None.

(** ** Reading argument vectors *)

(** The program a process runs and the last of its arguments. *)
Definition program_of (argv : list string) : string := hd "" argv.
Definition last_arg (argv : list string) : string := last argv "".

Fixpoint starts_with (needle l : list string) : bool :=
  match needle, l with
  | [], _ => true
  | _ :: _, [] => false
  | a :: needle', b :: l' => String.eqb a b && starts_with needle' l'
  end.

(** [contains needle l]: the strings of [needle] occur in [l], next to
    each other and in that order. *)
Fixpoint contains (needle l : list string) : bool :=
  starts_with needle l ||
  match l with
  | [] => false
  | _ :: l' => contains needle l'
  end.

(** ** Programs that avoid some system calls *)

(** [Only ok p]: every system call [p] can make satisfies [ok], whatever
    the environment answers. *)
Inductive Only {A : Type} (ok : Syscall -> Prop) : Prog A -> Prop :=
| Only_Ret : forall a, Only ok (Ret a)
| Only_Call : forall c k, ok c -> (forall r, Only ok (k r)) -> Only ok (Call c k).

(** The system calls other than process execution. *)
Definition not_exec (c : Syscall) : Prop :=
  match c with
  | logwrap_fork_execvp _ => False
  | _ => True
  end.

(** The system calls other than a property lookup. *)
Definition not_property (c : Syscall) : Prop :=
  match c with
  | GetBoolProperty _ _ => False
  | _ => True
  end.

(** The kernel [K] with the property lookups answered by [g]. *)
Definition with_properties {S : Type} (K : Kernel S)
    (g : string -> bool -> S -> bool * S) : Kernel S :=
  fun c =>
    match c return S -> Answer c * S with
    | GetBoolProperty key default_value => g key default_value
    | c' => K c'
    end.

(** ** The record of the system calls of a run *)

(** A system call with the answer it got. *)
Inductive Event : Type :=
| Called (c : Syscall) (r : Answer c).

(** The system calls a program makes against a kernel, in order. *)
Fixpoint calls {S A : Type} (K : Kernel S) (p : Prog A) (s : S) : list Event :=
  match p with
  | Ret _ => []
  | Call c k =>
      let '(r, s1) := K c s in
      Called c r :: calls K (k r) s1
  end.

(** The offsets of the reads in a record of calls. *)
Fixpoint offsets_read (t : list Event) : list Z :=
  match t with
  | [] => []
  | Called (sys_pread _ _ offset) _ :: t' => offset :: offsets_read t'
  | _ :: t' => offsets_read t'
  end.

(** ** Descriptors held along a record of calls

    A descriptor is held from the [open] that answers it until its
    [close].  Calls on a negative descriptor fail in the kernel and hold
    or release nothing. *)

(** [held] without one occurrence of [fd]; [None] when [fd] is not held. *)
Fixpoint take_out (fd : Z) (held : list Z) : option (list Z) :=
  match held with
  | [] => None
  | h :: rest =>
      if h =? fd then Some rest
      else option_map (cons h) (take_out fd rest)
  end.

Definition holds (fd : Z) (held : list Z) : bool := existsb (Z.eqb fd) held.

(** The descriptors held after one call, or [None] when the call misuses
    descriptors: it closes or uses a nonnegative descriptor that is not
    held, or it executes a process while a descriptor is held. *)
Definition descriptor_step (e : Event) (held : list Z) : option (list Z) :=
  match e with
  | Called c r =>
      match c return Answer c -> option (list Z) with
      | sys_open _ => fun fd => Some (if fd <? 0 then held else fd :: held)
      | sys_close fd => fun _ => if fd <? 0 then Some held else take_out fd held
      | sys_ioctl_BLKGETSIZE64 fd => fun _ =>
          if (fd <? 0) || holds fd held then Some held else None
      | sys_pread fd _ _ => fun _ =>
          if (fd <? 0) || holds fd held then Some held else None
      | logwrap_fork_execvp _ => fun _ =>
          match held with
          | [] => Some []
          | _ :: _ => None
          end
      | sys_access_X_OK _ => fun _ => Some held
      | GetBoolProperty _ _ => fun _ => Some held
      end r
  end.

Fixpoint descriptors (t : list Event) (held : list Z) : option (list Z) :=
  match t with
  | [] => Some held
  | e :: t' =>
      match descriptor_step e held with
      | Some held' => descriptors t' held'
      | None => None
      end
  end.

(** ** More classes of system calls *)

(** The system calls other than a read of the device. *)
Definition not_pread (c : Syscall) : Prop :=
  match c with
  | sys_pread _ _ _ => False
  | _ => True
  end.

(** The system calls [fs_mgr_do_resize] is seen to make: neither a
    property lookup nor [access]. *)
Definition resize_call (c : Syscall) : Prop :=
  match c with
  | GetBoolProperty _ _ => False
  | sys_access_X_OK _ => False
  | _ => True
  end.

(** The system calls that touch no descriptor: neither [open], [close],
    [ioctl] nor [pread]. *)
Definition not_device_call (c : Syscall) : Prop :=
  match c with
  | sys_open _ => False
  | sys_close _ => False
  | sys_ioctl_BLKGETSIZE64 _ => False
  | sys_pread _ _ _ => False
  | _ => True
  end.

(** ** The dispatch of [fs_mgr_do_format]

    The chain of comparisons of [fs_mgr_do_format] on the filesystem type,
    with the two flags it has set before. *)
Definition format_dispatch (CRYPT_FOOTER_OFFSET : Z) (entry : FstabEntry)
    (crypt_footer needs_projid needs_casefold : bool) : Prog Z :=
  if String.eqb (fs_type entry) "f2fs" then
    format_f2fs CRYPT_FOOTER_OFFSET (blk_device entry) (wrap64 (length entry))
      crypt_footer needs_projid needs_casefold (fs_compress (fs_mgr_flags entry))
  else if String.eqb (fs_type entry) "ext4" then
    format_ext4 CRYPT_FOOTER_OFFSET (blk_device entry) (mount_point entry)
      crypt_footer needs_projid (ext_meta_csum (fs_mgr_flags entry))
  else if String.eqb (fs_type entry) "vfat" then
    format_vfat (blk_device entry)
  else
    Ret (- EINVAL).

(** The programs the file executes. *)
Definition format_programs : list string :=
  ["/system/bin/mke2fs"; "/system/bin/e2fsdroid"; "/system/bin/make_f2fs";
   "/system/bin/newfs_msdos"].

(** ** General facts about [run] *)

Lemma run_bind (S A B : Type) (K : Kernel S) (p : Prog A) (f : A -> Prog B) (s : S) :
  run K (bind p f) s =
  let o := run K p s in
  let o' := run K (f (result o)) (final o) in
  {| result := result o'; final := final o';
     spawned := spawned o ++ spawned o' |}.
Proof.
  revert s. induction p as [a | c k IH]; intros s; simpl.
  - destruct (run K (f a) s); reflexivity.
  - destruct (K c s) as [r s1]. simpl. rewrite IH. simpl.
    rewrite app_assoc. reflexivity.
Qed.

Lemma Only_bind (A B : Type) (ok : Syscall -> Prop) (p : Prog A) (f : A -> Prog B) :
  Only ok p -> (forall a, Only ok (f a)) -> Only ok (bind p f).
Proof.
  intros Hp Hf. induction Hp as [a | c k Hc Hk IH]; simpl.
  - apply Hf.
  - constructor; assumption.
Qed.

Lemma Only_call (ok : Syscall -> Prop) (c : Syscall) : ok c -> Only ok (call c).
Proof. intros Hc. constructor; [assumption | constructor]. Qed.

(** A program that never executes a process spawns none. *)
Lemma Only_not_exec_spawned (S A : Type) (K : Kernel S) (p : Prog A) (s : S) :
  Only not_exec p -> spawned (run K p s) = [].
Proof.
  intros Hp. revert s. induction Hp as [a | c k Hc Hk IH]; intros s; simpl.
  - reflexivity.
  - destruct (K c s) as [r s1]. simpl. rewrite IH.
    destruct c; simpl in *; try reflexivity. contradiction.
Qed.

(** Two kernels that agree on the calls a program makes run it alike. *)
Lemma Only_run_ext (S A : Type) (ok : Syscall -> Prop) (K1 K2 : Kernel S) (p : Prog A) :
  (forall c s, ok c -> K1 c s = K2 c s) ->
  Only ok p -> forall s, run K1 p s = run K2 p s.
Proof.
  intros Hagree Hp. induction Hp as [a | c k Hc Hk IH]; intros s; simpl.
  - reflexivity.
  - rewrite (Hagree c s Hc). destruct (K2 c s) as [r s1]. rewrite IH. reflexivity.
Qed.

(** Closes a goal [Only ok (call c)] whose [ok c] holds by computation. *)
Ltac only_call :=
  match goal with
  | |- Only ?ok (call ?c) => exact (@Only_call ok c I)
  | |- Only ?ok (Call ?c _) => exact (@Only_call ok c I)
  end.

Lemma unique_fd_release_quiet (fd : Z) : Only not_exec (unique_fd_release fd).
Proof.
  unfold unique_fd_release. destruct (fd =? -1).
  - constructor.
  - only_call.
Qed.

Lemma get_dev_sz_quiet (fs_blkdev : string) (dev_sz : Z) :
  Only not_exec (get_dev_sz fs_blkdev dev_sz).
Proof.
  unfold get_dev_sz. apply Only_bind; [only_call | intros fd].
  destruct (fd <? 0).
  - apply Only_bind; [apply unique_fd_release_quiet | intros; constructor].
  - apply Only_bind; [only_call | intros [v|]];
      (apply Only_bind; [apply unique_fd_release_quiet | intros; constructor]).
Qed.

(** [get_dev_sz] returns 0 with the size stored, or -1 with the variable
    left as it was. *)
Lemma get_dev_sz_result (S : Type) (K : Kernel S) (fs_blkdev : string) (dev_sz : Z) (s : S) :
  result (run K (get_dev_sz fs_blkdev dev_sz) s) = (-1, dev_sz)
  \/ exists v, result (run K (get_dev_sz fs_blkdev dev_sz) s) = (0, v).
Proof.
  unfold get_dev_sz, unique_fd_release. simpl.
  destruct (K (sys_open fs_blkdev) s) as [fd s1]. simpl.
  destruct (fd <? 0).
  - left. destruct (fd =? -1); simpl; [reflexivity |].
    destruct (K (sys_close fd) s1); reflexivity.
  - simpl. destruct (K (sys_ioctl_BLKGETSIZE64 fd) s1) as [[v|] s2]; simpl;
      [right; exists v | left];
      (destruct (fd =? -1); simpl; [reflexivity |]);
      destruct (K (sys_close fd) s2); reflexivity.
Qed.

(** The first content of the variable matters only to a failed call. *)
Lemma get_dev_sz_first_content (S : Type) (K : Kernel S) (fs_blkdev : string)
    (d d' : Z) (s : S) :
  fst (result (run K (get_dev_sz fs_blkdev d) s))
    = fst (result (run K (get_dev_sz fs_blkdev d') s))
  /\ (fst (result (run K (get_dev_sz fs_blkdev d) s)) = 0 ->
      result (run K (get_dev_sz fs_blkdev d) s)
        = result (run K (get_dev_sz fs_blkdev d') s)).
Proof.
  unfold get_dev_sz, unique_fd_release. simpl.
  destruct (K (sys_open fs_blkdev) s) as [fd s1]. simpl.
  destruct (fd <? 0).
  - destruct (fd =? -1); simpl.
    + split; [reflexivity | discriminate].
    + destruct (K (sys_close fd) s1). simpl. split; [reflexivity | discriminate].
  - simpl. destruct (K (sys_ioctl_BLKGETSIZE64 fd) s1) as [[v|] s2]; simpl;
      (destruct (fd =? -1); simpl; [| destruct (K (sys_close fd) s2); simpl]);
      split; try reflexivity; discriminate.
Qed.

Lemma read_f2fs_sb_quiet (blk : string) : Only not_exec (read_f2fs_sb blk).
Proof.
  unfold read_f2fs_sb. apply Only_bind; [only_call | intros fd].
  apply Only_bind; [only_call | intros r].
  destruct (complete_read r) as [buf|].
  - destruct (magic _ =? _).
    + apply Only_bind; [apply unique_fd_release_quiet | intros; constructor].
    + apply Only_bind; [only_call | intros r'].
      destruct (complete_read r');
        (apply Only_bind; [apply unique_fd_release_quiet | intros; constructor]).
  - apply Only_bind; [apply unique_fd_release_quiet | intros; constructor].
Qed.

Lemma get_f2fs_size_quiet (blk : string) : Only not_exec (get_f2fs_size blk).
Proof.
  unfold get_f2fs_size. apply Only_bind; [apply read_f2fs_sb_quiet | intros [sb|]];
    constructor.
Qed.

(** The helper functions are unfolded on request only. *)
Arguments get_dev_sz : simpl never.
Arguments read_f2fs_sb : simpl never.
Arguments get_f2fs_size : simpl never.
Arguments mke2fs_args : simpl never.
Arguments make_f2fs_args : simpl never.
Arguments e2fsdroid_args : simpl never.
Arguments resize_f2fs_args : simpl never.
Arguments to_string : simpl never.
Arguments wrap64 : simpl never.

(** ** Properties of the format and resize entry points *)

Section Properties.

Variable CRYPT_FOOTER_OFFSET : Z.

Variable S : Type.
Variable K : Kernel S.

(** The run of a system call followed by a continuation. *)
Ltac answer c s r s' :=
  destruct (K c s) as [r s'] eqn:?; cbn.

(** C5: a filesystem type other than ext4, f2fs and vfat makes
    [fs_mgr_do_format] return -EINVAL without executing any process, and a
    type other than f2fs (ext4 included) makes [fs_mgr_do_resize] return
    -EINVAL at once, without any system call at all. *)
Theorem unsupported_fs_type_is_rejected :
  forall (s : S) (entry : FstabEntry) (crypt_footer : bool),
    (~ In (fs_type entry) ["ext4"; "f2fs"; "vfat"] ->
     Only not_exec (fs_mgr_do_format CRYPT_FOOTER_OFFSET entry crypt_footer) /\
     result (run K (fs_mgr_do_format CRYPT_FOOTER_OFFSET entry crypt_footer) s) = - EINVAL /\
     spawned (run K (fs_mgr_do_format CRYPT_FOOTER_OFFSET entry crypt_footer) s) = [])
    /\
    (fs_type entry <> "f2fs" ->
     fs_mgr_do_resize CRYPT_FOOTER_OFFSET entry crypt_footer = Ret (- EINVAL) /\
     result (run K (fs_mgr_do_resize CRYPT_FOOTER_OFFSET entry crypt_footer) s) = - EINVAL /\
     spawned (run K (fs_mgr_do_resize CRYPT_FOOTER_OFFSET entry crypt_footer) s) = []).
Proof.
  intros s entry crypt_footer. split.
  - intros Hnot.
    assert (Hf : String.eqb (fs_type entry) "f2fs" = false)
      by (apply String.eqb_neq; intros E; apply Hnot; rewrite E; cbn; tauto).
    assert (He : String.eqb (fs_type entry) "ext4" = false)
      by (apply String.eqb_neq; intros E; apply Hnot; rewrite E; cbn; tauto).
    assert (Hv : String.eqb (fs_type entry) "vfat" = false)
      by (apply String.eqb_neq; intros E; apply Hnot; rewrite E; cbn; tauto).
    unfold fs_mgr_do_format. rewrite Hf, He, Hv.
    destruct (String.eqb (mount_point entry) "/data"); cbn.
    + split.
      * constructor; [exact I | intros casefold].
        constructor; [exact I | intros projid]. constructor.
      * answer (GetBoolProperty "external_storage.casefold.enabled" false) s casefold s1.
        answer (GetBoolProperty "external_storage.projid.enabled" false) s1 projid s2.
        split; reflexivity.
    + repeat split. constructor.
  - intros Hnot. apply String.eqb_neq in Hnot.
    unfold fs_mgr_do_resize. rewrite Hnot. repeat split.
Qed.

(** The three ways [format_ext4] can go. *)
Lemma format_ext4_outcomes :
  forall (s : S) (fs_blkdev fs_mnt_point : string)
         (crypt_footer needs_projid needs_metadata_csum : bool),
    let o := run K (format_ext4 CRYPT_FOOTER_OFFSET fs_blkdev fs_mnt_point
                      crypt_footer needs_projid needs_metadata_csum) s in
    (result o = -1 /\ spawned o = [])
    \/ (exists size_str rc,
          rc <> 0 /\
          spawned o = [(mke2fs_args fs_blkdev size_str needs_projid needs_metadata_csum, rc)] /\
          result o = rc)
    \/ (exists size_str rc,
          spawned o = [(mke2fs_args fs_blkdev size_str needs_projid needs_metadata_csum, 0);
                       (e2fsdroid_args fs_mnt_point fs_blkdev, rc)] /\
          result o = rc).
Proof.
  intros s blk mnt cf projid csum o. subst o.
  unfold format_ext4. rewrite run_bind. cbn.
  rewrite (Only_not_exec_spawned K s (get_dev_sz_quiet blk 0)). cbn.
  destruct (get_dev_sz_result K blk 0 s) as [Hfail | [v Hok]].
  - left. rewrite Hfail. cbn. split; reflexivity.
  - right. rewrite Hok. cbn.
    set (argv := mke2fs_args blk _ projid csum).
    answer (logwrap_fork_execvp argv) (final (run K (get_dev_sz blk 0) s)) rc s1.
    destruct (Z.eqb_spec rc 0) as [Hz | Hnz]; cbn.
    + right. subst rc.
      answer (logwrap_fork_execvp (e2fsdroid_args mnt blk)) s1 rc2 s2.
      eexists _, rc2. split; reflexivity.
    + left. eexists _, rc. repeat split. assumption.
Qed.

(** C8: when the mount point is not "/data", [fs_mgr_do_format] makes no
    property lookup: it is the dispatch with both flags false, and two runs
    that differ only in the answers to property lookups are the same run
    (same result, same final state, same processes with the same
    arguments). *)
Theorem format_off_data_ignores_properties :
  forall (s : S) (entry : FstabEntry) (crypt_footer : bool)
         (g1 g2 : string -> bool -> S -> bool * S),
    mount_point entry <> "/data" ->
    fs_mgr_do_format CRYPT_FOOTER_OFFSET entry crypt_footer =
      (if String.eqb (fs_type entry) "f2fs" then
         format_f2fs CRYPT_FOOTER_OFFSET (blk_device entry) (wrap64 (length entry))
           crypt_footer false false (fs_compress (fs_mgr_flags entry))
       else if String.eqb (fs_type entry) "ext4" then
         format_ext4 CRYPT_FOOTER_OFFSET (blk_device entry) (mount_point entry)
           crypt_footer false (ext_meta_csum (fs_mgr_flags entry))
       else if String.eqb (fs_type entry) "vfat" then
         format_vfat (blk_device entry)
       else Ret (- EINVAL))
    /\ Only not_property (fs_mgr_do_format CRYPT_FOOTER_OFFSET entry crypt_footer)
    /\ run (with_properties K g1) (fs_mgr_do_format CRYPT_FOOTER_OFFSET entry crypt_footer) s
       = run (with_properties K g2) (fs_mgr_do_format CRYPT_FOOTER_OFFSET entry crypt_footer) s.
Proof.
  intros s entry cf g1 g2 Hmnt. apply String.eqb_neq in Hmnt.
  assert (Hshape : fs_mgr_do_format CRYPT_FOOTER_OFFSET entry cf =
      (if String.eqb (fs_type entry) "f2fs" then
         format_f2fs CRYPT_FOOTER_OFFSET (blk_device entry) (wrap64 (length entry))
           cf false false (fs_compress (fs_mgr_flags entry))
       else if String.eqb (fs_type entry) "ext4" then
         format_ext4 CRYPT_FOOTER_OFFSET (blk_device entry) (mount_point entry)
           cf false (ext_meta_csum (fs_mgr_flags entry))
       else if String.eqb (fs_type entry) "vfat" then
         format_vfat (blk_device entry)
       else Ret (- EINVAL))).
  { unfold fs_mgr_do_format. rewrite Hmnt. reflexivity. }
  assert (Hquiet : Only not_property (fs_mgr_do_format CRYPT_FOOTER_OFFSET entry cf)).
  { rewrite Hshape.
    assert (Hsz : forall blk d, Only not_property (get_dev_sz blk d)).
    { intros blk d. unfold get_dev_sz, unique_fd_release.
      apply Only_bind; [only_call | intros fd].
      destruct (fd <? 0).
      - apply Only_bind; [destruct (fd =? -1); [constructor | only_call]
                         | intros; constructor].
      - apply Only_bind; [only_call | intros [v|]];
          (apply Only_bind; [destruct (fd =? -1); [constructor | only_call]
                            | intros; constructor]). }
    destruct (String.eqb (fs_type entry) "f2fs").
    { unfold format_f2fs, format_f2fs_sized.
      destruct (wrap64 (length entry) =? 0); [| only_call].
      apply Only_bind; [apply Hsz | intros [rc d]].
      destruct (negb (rc =? 0)); [constructor | only_call]. }
    destruct (String.eqb (fs_type entry) "ext4").
    { unfold format_ext4.
      apply Only_bind; [apply Hsz | intros [rc d]].
      destruct (negb (rc =? 0)); [constructor |].
      apply Only_bind; [only_call | intros rc1].
      destruct (negb (rc1 =? 0)); [constructor |].
      apply Only_bind; [only_call | intros; constructor]. }
    destruct (String.eqb (fs_type entry) "vfat").
    { unfold format_vfat. apply Only_bind; [only_call | intros; only_call]. }
    constructor. }
  split; [exact Hshape |]. split; [exact Hquiet |].
  apply Only_run_ext with (ok := not_property); [| exact Hquiet].
  intros c s0 Hc. destruct c; cbn in Hc; try reflexivity. contradiction.
Qed.

(** *** Feature options *)

Lemma starts_with_spec (needle l : list string) :
  starts_with needle l = true <-> exists post, l = needle ++ post.
Proof.
  revert l. induction needle as [| a needle IH]; intros l; cbn.
  - split; [intros _; exists l; reflexivity | reflexivity].
  - destruct l as [| b l]; [split; [discriminate | intros [post E]; discriminate] |].
    rewrite andb_true_iff, String.eqb_eq, IH. split.
    + intros [-> [post ->]]. exists post. reflexivity.
    + intros [post E]. injection E as -> ->. split; [reflexivity | exists post; reflexivity].
Qed.

(** [contains] decides the occurrence of a run of consecutive strings. *)
Lemma contains_spec (needle l : list string) :
  contains needle l = true <-> exists pre post, l = pre ++ needle ++ post.
Proof.
  induction l as [| b l IH]; cbn.
  - rewrite orb_false_r, starts_with_spec. split.
    + intros [post E]. exists [], post. exact E.
    + intros [pre [post E]]. destruct pre; [exists post; exact E | discriminate].
  - rewrite orb_true_iff, IH, starts_with_spec. split.
    + intros [[post E] | [pre [post E]]].
      * exists [], post. exact E.
      * exists (b :: pre), post. cbn. rewrite E. reflexivity.
    + intros [pre [post E]]. destruct pre as [| b' pre].
      * left. exists post. exact E.
      * right. injection E as -> E. exists pre, post. exact E.
Qed.

(** C7: the vector executed by each formatter is a fixed head, then the
    feature options, then the device and the block count; the options are
    the groups of the flags that are set, in the order of the source, so
    that they contain "-I 512" exactly when project IDs are requested and
    "-O metadata_csum -O 64bit -O extent" exactly when the metadata checksum
    is (ext4); "-O project_quota,extra_attr" exactly when project IDs are
    requested, "-O casefold -C utf8" exactly when case folding is and
    "-O compression -O extra_attr" exactly when compression is (f2fs).  The
    same holds of the whole vector as long as the device path is not itself
    one of the words "-I" and "-O". *)
Theorem feature_options_follow_flags :
  forall (s : S) (fs_blkdev fs_mnt_point : string) (dev_sz : Z)
         (crypt_footer needs_projid needs_metadata_csum needs_casefold fs_compress : bool),
    (forall argv rc rest,
        spawned (run K (format_ext4 CRYPT_FOOTER_OFFSET fs_blkdev fs_mnt_point
                          crypt_footer needs_projid needs_metadata_csum) s)
          = (argv, rc) :: rest ->
        exists options size_str,
          argv = ["/system/bin/mke2fs"; "-t"; "ext4"; "-b"; "4096"]
                   ++ options ++ [fs_blkdev; size_str] /\
          options = (if needs_projid then ["-I"; "512"] else [])
                    ++ (if needs_metadata_csum
                        then ["-O"; "metadata_csum"; "-O"; "64bit"; "-O"; "extent"]
                        else []) /\
          contains ["-I"; "512"] options = needs_projid /\
          contains ["-O"; "metadata_csum"; "-O"; "64bit"; "-O"; "extent"] options
            = needs_metadata_csum /\
          (fs_blkdev <> "-I" -> fs_blkdev <> "-O" ->
           contains ["-I"; "512"] argv = needs_projid /\
           contains ["-O"; "metadata_csum"; "-O"; "64bit"; "-O"; "extent"] argv
             = needs_metadata_csum))
    /\
    (forall argv rc rest,
        spawned (run K (format_f2fs CRYPT_FOOTER_OFFSET fs_blkdev dev_sz
                          crypt_footer needs_projid needs_casefold fs_compress) s)
          = (argv, rc) :: rest ->
        exists options size_str,
          argv = ["/system/bin/make_f2fs"; "-g"; "android"]
                   ++ options ++ [fs_blkdev; size_str] /\
          options = (if needs_projid then ["-O"; "project_quota,extra_attr"] else [])
                    ++ (if needs_casefold then ["-O"; "casefold"; "-C"; "utf8"] else [])
                    ++ (if fs_compress
                        then ["-O"; "compression"; "-O"; "extra_attr"] else []) /\
          contains ["-O"; "project_quota,extra_attr"] options = needs_projid /\
          contains ["-O"; "casefold"; "-C"; "utf8"] options = needs_casefold /\
          contains ["-O"; "compression"; "-O"; "extra_attr"] options = fs_compress /\
          (fs_blkdev <> "-O" ->
           contains ["-O"; "project_quota,extra_attr"] argv = needs_projid /\
           contains ["-O"; "casefold"; "-C"; "utf8"] argv = needs_casefold /\
           contains ["-O"; "compression"; "-O"; "extra_attr"] argv = fs_compress)).
Proof.
  intros s blk mnt dev_sz cf projid csum casefold compress. split.
  - intros argv rc rest Hrun.
    assert (Hargs : exists size_str, argv = mke2fs_args blk size_str projid csum).
    { destruct (format_ext4_outcomes s blk mnt cf projid csum)
        as [[_ Hnone] | [(size_str & rc' & _ & Hone & _) | (size_str & rc' & Htwo & _)]].
      - rewrite Hnone in Hrun. discriminate.
      - rewrite Hone in Hrun. injection Hrun as <- _ _. exists size_str. reflexivity.
      - rewrite Htwo in Hrun. injection Hrun as <- _ _. exists size_str. reflexivity. }
    destruct Hargs as [size_str ->]. unfold mke2fs_args.
    exists ((if projid then ["-I"; "512"] else [])
            ++ (if csum then ["-O"; "metadata_csum"; "-O"; "64bit"; "-O"; "extent"] else [])),
           size_str.
    split; [destruct projid, csum; reflexivity |]. split; [reflexivity |].
    split; [destruct projid, csum; reflexivity |].
    split; [destruct projid, csum; reflexivity |].
    intros HI HO. apply not_eq_sym in HI, HO.
    apply String.eqb_neq in HI, HO.
    destruct projid, csum; cbn -[String.eqb]; rewrite ?HI, ?HO, ?andb_false_r;
      split; reflexivity.
  - intros argv rc rest Hrun.
    assert (Hsized : forall d s0 argv rc rest,
               spawned (run K (format_f2fs_sized CRYPT_FOOTER_OFFSET blk d cf
                                 projid casefold compress) s0) = (argv, rc) :: rest ->
               exists size_str, argv = make_f2fs_args blk size_str projid casefold compress).
    { intros d s0 argv0 rc0 rest0. unfold format_f2fs_sized. cbn.
      destruct (K _ s0) as [rc1 s1]. cbn. intros E. injection E as <- _ _.
      eexists. reflexivity. }
    assert (Hargs : exists size_str, argv = make_f2fs_args blk size_str projid casefold compress).
    { unfold format_f2fs in Hrun. destruct (dev_sz =? 0).
      - rewrite run_bind in Hrun. cbn in Hrun.
        rewrite (Only_not_exec_spawned K s (get_dev_sz_quiet blk dev_sz)) in Hrun.
        cbn in Hrun.
        destruct (result (run K (get_dev_sz blk dev_sz) s)) as [rc0 d].
        destruct (negb (rc0 =? 0)); [discriminate |].
        eapply Hsized. exact Hrun.
      - eapply Hsized. exact Hrun. }
    destruct Hargs as [size_str ->]. unfold make_f2fs_args.
    exists ((if projid then ["-O"; "project_quota,extra_attr"] else [])
            ++ (if casefold then ["-O"; "casefold"; "-C"; "utf8"] else [])
            ++ (if compress then ["-O"; "compression"; "-O"; "extra_attr"] else [])),
           size_str.
    split; [destruct projid, casefold, compress; reflexivity |]. split; [reflexivity |].
    split; [destruct projid, casefold, compress; reflexivity |].
    split; [destruct projid, casefold, compress; reflexivity |].
    split; [destruct projid, casefold, compress; reflexivity |].
    intros HO. apply not_eq_sym in HO. apply String.eqb_neq in HO.
    destruct projid, casefold, compress; cbn -[String.eqb]; rewrite ?HO, ?andb_false_r;
      repeat split; reflexivity.
Qed.

(** *** The size passed to the formatters *)

Lemma wrap64_range (z : Z) : 0 <= wrap64 z < 2 ^ 64.
Proof. unfold wrap64. apply Z.mod_pos_bound. reflexivity. Qed.

Lemma wrap64_small (z : Z) : 0 <= z < 2 ^ 64 -> wrap64 z = z.
Proof. intros H. unfold wrap64. apply Z.mod_small. exact H. Qed.

(** Below the offset the subtraction wraps around. *)
Lemma wrap64_underflow (d off : Z) :
  0 <= d < off -> off < 2 ^ 64 -> wrap64 (d - off) = d + 2 ^ 64 - off.
Proof.
  intros Hd Hoff. unfold wrap64.
  replace (d - off) with (d + 2 ^ 64 - off + (-1) * 2 ^ 64) by ring.
  rewrite Z.mod_add by (intros E; discriminate E).
  apply Z.mod_small. lia.
Qed.

Lemma drop_crypt_footer_wrap (crypt_footer : bool) (dev_sz : Z) :
  0 <= dev_sz < 2 ^ 64 ->
  drop_crypt_footer CRYPT_FOOTER_OFFSET crypt_footer dev_sz
  = wrap64 (dev_sz - (if crypt_footer then CRYPT_FOOTER_OFFSET else 0)).
Proof.
  intros H. unfold drop_crypt_footer. destruct crypt_footer; [reflexivity |].
  rewrite Z.sub_0_r, wrap64_small; [reflexivity | exact H].
Qed.

Lemma outcome_eta (A : Type) (o : Outcome S A) :
  {| result := result o; final := final o; spawned := spawned o |} = o.
Proof. destruct o; reflexivity. Qed.

(** Once the size is resolved, [format_f2fs] goes on as
    [format_f2fs_sized]. *)
Lemma format_f2fs_resolved (s s1 : S) (blk : string) (declared dev_sz : Z)
    (cf projid casefold compress : bool) :
  dev_sz_resolved K blk declared s dev_sz s1 ->
  run K (format_f2fs CRYPT_FOOTER_OFFSET blk declared cf projid casefold compress) s
  = run K (format_f2fs_sized CRYPT_FOOTER_OFFSET blk dev_sz cf projid casefold compress) s1.
Proof.
  intros [(Hnz & -> & ->) | (-> & Hres & Hfin)]; unfold format_f2fs.
  - apply Z.eqb_neq in Hnz. rewrite Hnz. reflexivity.
  - cbn [Z.eqb]. rewrite run_bind. cbv zeta.
    rewrite (Only_not_exec_spawned K s (get_dev_sz_quiet blk 0)), Hres, Hfin.
    cbn [negb Z.eqb app]. apply outcome_eta.
Qed.

Lemma resize_f2fs_resolved (s s1 : S) (blk : string) (declared dev_sz : Z) (cf : bool) :
  dev_sz_resolved K blk declared s dev_sz s1 ->
  run K (resize_f2fs CRYPT_FOOTER_OFFSET blk declared cf) s
  = run K (resize_f2fs_sized CRYPT_FOOTER_OFFSET blk dev_sz cf) s1.
Proof.
  intros [(Hnz & -> & ->) | (-> & Hres & Hfin)]; unfold resize_f2fs.
  - apply Z.eqb_neq in Hnz. rewrite Hnz. reflexivity.
  - cbn [Z.eqb]. rewrite run_bind. cbv zeta.
    rewrite (Only_not_exec_spawned K s (get_dev_sz_quiet blk 0)), Hres, Hfin.
    cbn [negb Z.eqb app]. apply outcome_eta.
Qed.

(** What [format_f2fs_sized] executes. *)
Lemma format_f2fs_sized_run (s : S) (blk : string) (dev_sz : Z)
    (cf projid casefold compress : bool) :
  exists rc,
    spawned (run K (format_f2fs_sized CRYPT_FOOTER_OFFSET blk dev_sz cf
                      projid casefold compress) s)
    = [(make_f2fs_args blk
          (to_string (drop_crypt_footer CRYPT_FOOTER_OFFSET cf dev_sz / 4096))
          projid casefold compress, rc)]
    /\ result (run K (format_f2fs_sized CRYPT_FOOTER_OFFSET blk dev_sz cf
                       projid casefold compress) s) = rc.
Proof.
  unfold format_f2fs_sized. cbn.
  destruct (K _ s) as [rc s1]. cbn. exists rc. split; reflexivity.
Qed.

(** What [format_ext4] executes first when the size of the device is
    read. *)
Lemma format_ext4_sized_run (s : S) (blk mnt : string) (D : Z) (cf projid csum : bool) :
  result (run K (get_dev_sz blk 0) s) = (0, D) ->
  exists rc rest,
    spawned (run K (format_ext4 CRYPT_FOOTER_OFFSET blk mnt cf projid csum) s)
    = (mke2fs_args blk
         (to_string (drop_crypt_footer CRYPT_FOOTER_OFFSET cf D / 4096))
         projid csum, rc) :: rest.
Proof.
  intros Hres. unfold format_ext4. rewrite run_bind. cbv zeta.
  rewrite (Only_not_exec_spawned K s (get_dev_sz_quiet blk 0)), Hres.
  cbn. destruct (K _ (final (run K (get_dev_sz blk 0) s))) as [rc s1]. cbn.
  eexists rc, _. reflexivity.
Qed.

Lemma mke2fs_args_shape (blk size_str : string) (projid csum : bool) :
  program_of (mke2fs_args blk size_str projid csum) = "/system/bin/mke2fs"
  /\ last_arg (mke2fs_args blk size_str projid csum) = size_str.
Proof. destruct projid, csum; split; reflexivity. Qed.

Lemma make_f2fs_args_shape (blk size_str : string) (projid casefold compress : bool) :
  program_of (make_f2fs_args blk size_str projid casefold compress) = "/system/bin/make_f2fs"
  /\ last_arg (make_f2fs_args blk size_str projid casefold compress) = size_str.
Proof. destruct projid, casefold, compress; split; reflexivity. Qed.

(** C6: in [format_ext4], once the size of the device is read, mke2fs is
    run; when the kernel answers a non-zero exit status for it, that
    status is returned and mke2fs is the only process run (e2fsdroid is
    not); when it answers 0, e2fsdroid is run next, on the mount point and
    the device, and the exit status the kernel answers for e2fsdroid is
    the result. *)
Theorem format_ext4_stops_on_mke2fs_failure :
  forall (s s1 : S) (fs_blkdev fs_mnt_point : string) (D : Z)
         (crypt_footer needs_projid needs_metadata_csum : bool),
    result (run K (get_dev_sz fs_blkdev 0) s) = (0, D) ->
    final (run K (get_dev_sz fs_blkdev 0) s) = s1 ->
    let mke2fs :=
      mke2fs_args fs_blkdev
        (to_string (drop_crypt_footer CRYPT_FOOTER_OFFSET crypt_footer D / 4096))
        needs_projid needs_metadata_csum in
    let e2fsdroid := ["/system/bin/e2fsdroid"; "-e"; "-a"; fs_mnt_point; fs_blkdev] in
    let o := run K (format_ext4 CRYPT_FOOTER_OFFSET fs_blkdev fs_mnt_point
                      crypt_footer needs_projid needs_metadata_csum) s in
    program_of mke2fs = "/system/bin/mke2fs"
    /\ (forall (rc : Z) (s2 : S),
           K (logwrap_fork_execvp mke2fs) s1 = (rc, s2) ->
           rc <> 0 ->
           result o = rc /\ spawned o = [(mke2fs, rc)] /\ final o = s2)
    /\ (forall (s2 : S),
           K (logwrap_fork_execvp mke2fs) s1 = (0, s2) ->
           forall (rc : Z) (s3 : S),
             K (logwrap_fork_execvp e2fsdroid) s2 = (rc, s3) ->
             result o = rc /\ spawned o = [(mke2fs, 0); (e2fsdroid, rc)] /\ final o = s3).
Proof.
  intros s s1 blk mnt D cf projid csum Hsz Hfin mke2fs e2fsdroid o.
  assert (Ho : o = run K (rc <- call (logwrap_fork_execvp mke2fs) ;;
                          if negb (rc =? 0) then Ret rc
                          else rc <- call (logwrap_fork_execvp (e2fsdroid_args mnt blk)) ;;
                               Ret rc) s1).
  { subst o. unfold format_ext4. rewrite run_bind. cbv zeta.
    rewrite (Only_not_exec_spawned K s (get_dev_sz_quiet blk 0)), Hsz, Hfin.
    cbn [negb Z.eqb app]. apply outcome_eta. }
  split; [apply mke2fs_args_shape |]. split.
  - intros rc s2 Hmke2fs Hnz. rewrite Ho. cbn [bind call run]. rewrite Hmke2fs.
    apply Z.eqb_neq in Hnz. rewrite Hnz. cbn. repeat split.
  - intros s2 Hmke2fs rc s3 He2fsdroid. rewrite Ho. cbn [bind call run].
    rewrite Hmke2fs. cbn [negb Z.eqb bind call run].
    change (e2fsdroid_args mnt blk) with e2fsdroid. rewrite He2fsdroid.
    cbn. repeat split.
Qed.

(** C1, amended: the block count passed to mke2fs is the decimal string of
    ((D - footer) mod 2^64) / 4096, where [D] is the size read from the
    device and [footer] is CRYPT_FOOTER_OFFSET when the flag is set and 0
    otherwise; the block count passed to make_f2fs is the same with the
    declared length in the place of [D] when that length is not 0.  The
    count is (D - footer) / 4096 whenever the footer fits in the size. *)
Theorem format_block_count :
  forall (s s1 : S) (fs_blkdev fs_mnt_point : string) (declared D : Z)
         (crypt_footer needs_projid needs_metadata_csum needs_casefold fs_compress : bool),
    0 <= D < 2 ^ 64 ->
    let footer := if crypt_footer then CRYPT_FOOTER_OFFSET else 0 in
    (result (run K (get_dev_sz fs_blkdev 0) s) = (0, D) ->
     exists argv rc rest,
       spawned (run K (format_ext4 CRYPT_FOOTER_OFFSET fs_blkdev fs_mnt_point
                         crypt_footer needs_projid needs_metadata_csum) s)
         = (argv, rc) :: rest /\
       program_of argv = "/system/bin/mke2fs" /\
       last_arg argv = to_string (wrap64 (D - footer) / 4096))
    /\
    (dev_sz_resolved K fs_blkdev declared s D s1 ->
     exists argv rc,
       spawned (run K (format_f2fs CRYPT_FOOTER_OFFSET fs_blkdev declared
                         crypt_footer needs_projid needs_casefold fs_compress) s)
         = [(argv, rc)] /\
       program_of argv = "/system/bin/make_f2fs" /\
       last_arg argv = to_string (wrap64 (D - footer) / 4096))
    /\
    (0 <= footer <= D -> wrap64 (D - footer) / 4096 = (D - footer) / 4096).
Proof.
  intros s s1 blk mnt declared D cf projid csum casefold compress HD footer.
  repeat split.
  - intros Hres.
    destruct (format_ext4_sized_run s blk mnt cf projid csum Hres) as (rc & rest & Hrun).
    eexists _, rc, rest. split; [exact Hrun |].
    rewrite (drop_crypt_footer_wrap cf HD).
    apply mke2fs_args_shape.
  - intros Hres. rewrite (format_f2fs_resolved cf projid casefold compress Hres).
    destruct (format_f2fs_sized_run s1 blk D cf projid casefold compress) as (rc & Hrun & _).
    eexists _, rc. split; [exact Hrun |].
    rewrite (drop_crypt_footer_wrap cf HD).
    apply make_f2fs_args_shape.
  - intros Hfit. rewrite wrap64_small; [reflexivity | lia].
Qed.

(** C4, amended: when the declared length of the entry is 0, or is the
    size of the device, [format_f2fs] and [format_ext4] pass the same
    block count, computed from the size read from the device less the
    crypto footer, divided by 4096.  (A declared length other than 0 takes
    the place of the size of the device in [format_f2fs] only.) *)
Theorem f2fs_block_count_matches_ext4 :
  forall (s : S) (entry : FstabEntry) (D : Z)
         (crypt_footer needs_projid needs_casefold : bool),
    0 <= D < 2 ^ 64 ->
    result (run K (get_dev_sz (blk_device entry) 0) s) = (0, D) ->
    wrap64 (length entry) = 0 \/ wrap64 (length entry) = D ->
    exists argv_f2fs rc_f2fs argv_ext4 rc_ext4 rest,
      spawned (run K (format_f2fs CRYPT_FOOTER_OFFSET (blk_device entry)
                        (wrap64 (length entry)) crypt_footer needs_projid
                        needs_casefold (fs_compress (fs_mgr_flags entry))) s)
        = [(argv_f2fs, rc_f2fs)] /\
      spawned (run K (format_ext4 CRYPT_FOOTER_OFFSET (blk_device entry)
                        (mount_point entry) crypt_footer needs_projid
                        (ext_meta_csum (fs_mgr_flags entry))) s)
        = (argv_ext4, rc_ext4) :: rest /\
      last_arg argv_f2fs = last_arg argv_ext4 /\
      last_arg argv_ext4
        = to_string (wrap64 (D - (if crypt_footer then CRYPT_FOOTER_OFFSET else 0)) / 4096).
Proof.
  intros s entry D cf projid casefold HD Hres Hlen.
  assert (Hresolved : exists s1,
             dev_sz_resolved K (blk_device entry) (wrap64 (length entry)) s D s1).
  { destruct (Z.eq_dec (wrap64 (length entry)) 0) as [Hz | Hnz].
    - eexists. right. repeat split; [exact Hz | exact Hres].
    - exists s. left. destruct Hlen as [E | E]; [contradiction |].
      repeat split; [exact Hnz | symmetry; exact E]. }
  destruct Hresolved as [s1 Hresolved].
  rewrite (format_f2fs_resolved cf projid casefold (fs_compress (fs_mgr_flags entry)) Hresolved).
  destruct (format_f2fs_sized_run s1 (blk_device entry) D cf projid casefold
              (fs_compress (fs_mgr_flags entry))) as (rc1 & Hf2fs & _).
  destruct (format_ext4_sized_run s (blk_device entry) (mount_point entry) cf projid
              (ext_meta_csum (fs_mgr_flags entry)) Hres) as (rc2 & rest & Hext4).
  eexists _, rc1, _, rc2, rest.
  split; [exact Hf2fs |]. split; [exact Hext4 |].
  rewrite (proj2 (mke2fs_args_shape _ _ _ _)), (proj2 (make_f2fs_args_shape _ _ _ _ _)).
  rewrite (drop_crypt_footer_wrap cf HD). split; reflexivity.
Qed.

(** *** The resize decision *)

(** The size [get_f2fs_size] returns is a [uint64_t]. *)
Lemma get_f2fs_size_range (s : S) (blk : string) :
  0 <= result (run K (get_f2fs_size blk) s) < 2 ^ 64.
Proof.
  unfold get_f2fs_size. rewrite run_bind. cbv zeta.
  destruct (result (run K (read_f2fs_sb blk) s)) as [sb |]; cbn.
  - apply wrap64_range.
  - split; [apply Z.le_refl | reflexivity].
Qed.

(** What [resize_f2fs_sized] does, from the size [get_f2fs_size] finds. *)
Lemma resize_f2fs_sized_run (s : S) (blk : string) (dev_sz : Z) (cf : bool) :
  let target := drop_crypt_footer CRYPT_FOOTER_OFFSET cf dev_sz in
  let q := run K (get_f2fs_size blk) s in
  let argv := resize_f2fs_args (to_string (target / 512)) blk in
  run K (resize_f2fs_sized CRYPT_FOOTER_OFFSET blk dev_sz cf) s
  = if (result q <=? 0) || (target <=? wrap64 (result q + 4096 * 1024))
    then {| result := 0; final := final q; spawned := [] |}
    else {| result := fst (K (logwrap_fork_execvp argv) (final q));
            final := snd (K (logwrap_fork_execvp argv) (final q));
            spawned := [(argv, fst (K (logwrap_fork_execvp argv) (final q)))] |}.
Proof.
  intros target q argv. unfold resize_f2fs_sized. rewrite run_bind. cbv zeta.
  rewrite (Only_not_exec_spawned K s (get_f2fs_size_quiet blk)).
  fold q. fold target.
  destruct ((result q <=? 0) || (target <=? wrap64 (result q + 4096 * 1024))).
  - reflexivity.
  - cbn. fold target. fold argv.
    destruct (K (logwrap_fork_execvp argv) (final q)) as [rc s2]. reflexivity.
Qed.

(** The two ways [resize_f2fs] can go once the size is resolved. *)
Lemma resize_f2fs_cases (s s1 : S) (blk : string) (declared D : Z) (cf : bool) :
  dev_sz_resolved K blk declared s D s1 ->
  let target := drop_crypt_footer CRYPT_FOOTER_OFFSET cf D in
  let f2fs_sz := result (run K (get_f2fs_size blk) s1) in
  let o := run K (resize_f2fs CRYPT_FOOTER_OFFSET blk declared cf) s in
  (f2fs_sz = 0 \/ target <= wrap64 (f2fs_sz + 4096 * 1024) ->
   result o = 0 /\ spawned o = [])
  /\
  (f2fs_sz <> 0 /\ wrap64 (f2fs_sz + 4096 * 1024) < target ->
   exists rc,
     spawned o = [(resize_f2fs_args (to_string (target / 512)) blk, rc)]
     /\ result o = rc).
Proof.
  intros Hres target f2fs_sz o.
  pose proof (get_f2fs_size_range s1 blk) as Hrange. fold f2fs_sz in Hrange.
  assert (Ho : o = run K (resize_f2fs_sized CRYPT_FOOTER_OFFSET blk D cf) s1)
    by (apply resize_f2fs_resolved; exact Hres).
  rewrite resize_f2fs_sized_run in Ho. cbv zeta in Ho. fold target f2fs_sz in Ho.
  split.
  - intros Hskip.
    replace ((f2fs_sz <=? 0) || (target <=? wrap64 (f2fs_sz + 4096 * 1024))) with true in Ho.
    + rewrite Ho. split; reflexivity.
    + symmetry. apply orb_true_iff.
      destruct Hskip as [Hz | Hle]; [left; apply Z.leb_le; lia | right; apply Z.leb_le; exact Hle].
  - intros [Hnz Hlt].
    replace ((f2fs_sz <=? 0) || (target <=? wrap64 (f2fs_sz + 4096 * 1024))) with false in Ho.
    + rewrite Ho. eexists. split; reflexivity.
    + symmetry. apply orb_false_iff. split; apply Z.leb_gt; lia.
Qed.

(** C3, amended: once the size to resize to is known ([target], the
    declared length or else the size read from the device, less the crypto
    footer), [resize_f2fs] returns 0 without running resize.f2fs when
    [get_f2fs_size] returns 0 or [target] does not exceed the current size
    plus 4096 * 1024, that sum being taken modulo 2^64; otherwise it runs
    resize.f2fs with [target / 512] and returns its exit status.  The sum
    does not wrap when it is below 2^64. *)
Theorem resize_f2fs_decision :
  forall (s s1 : S) (fs_blkdev : string) (declared D : Z) (crypt_footer : bool),
    0 <= D < 2 ^ 64 ->
    dev_sz_resolved K fs_blkdev declared s D s1 ->
    let target := wrap64 (D - (if crypt_footer then CRYPT_FOOTER_OFFSET else 0)) in
    let f2fs_sz := result (run K (get_f2fs_size fs_blkdev) s1) in
    let o := run K (resize_f2fs CRYPT_FOOTER_OFFSET fs_blkdev declared crypt_footer) s in
    (f2fs_sz = 0 \/ target <= wrap64 (f2fs_sz + 4096 * 1024) ->
     result o = 0 /\ spawned o = [])
    /\
    (f2fs_sz <> 0 /\ wrap64 (f2fs_sz + 4096 * 1024) < target ->
     exists rc,
       spawned o = [(["/system/bin/resize.f2fs"; "-t"; to_string (target / 512); fs_blkdev], rc)]
       /\ result o = rc)
    /\
    (f2fs_sz + 4096 * 1024 < 2 ^ 64 ->
     wrap64 (f2fs_sz + 4096 * 1024) = f2fs_sz + 4096 * 1024).
Proof.
  intros s s1 blk declared D cf HD Hres target f2fs_sz o.
  pose proof (resize_f2fs_cases cf Hres) as Hcases. cbv zeta in Hcases.
  rewrite (drop_crypt_footer_wrap cf HD) in Hcases.
  destruct Hcases as [Hskip Hgo].
  split; [exact Hskip | split; [exact Hgo |]].
  intros Hsmall. apply wrap64_small.
  pose proof (get_f2fs_size_range s1 blk) as Hrange. fold f2fs_sz in Hrange. lia.
Qed.

(** *** The superblock reader *)

Lemma byte_value_range (b : byte) : 0 <= Z.of_N (Byte.to_N b) < 256.
Proof. pose proof (Byte.to_N_bounded b). lia. Qed.

Lemma byte_value_inj (a b : byte) :
  Z.of_N (Byte.to_N a) = Z.of_N (Byte.to_N b) -> a = b.
Proof.
  intros E. apply N2Z.inj in E.
  pose proof (Byte.of_to_N a) as Ha. rewrite E, Byte.of_to_N in Ha.
  injection Ha as ->. reflexivity.
Qed.

Lemma le_value_nonneg (l : list byte) : 0 <= le_value l.
Proof.
  induction l as [| b l IH]; cbn [le_value]; [apply Z.le_refl |].
  pose proof (byte_value_range b). lia.
Qed.

(** Byte sequences of one length with one little-endian value are equal. *)
Lemma le_value_inj (l1 l2 : list byte) :
  List.length l1 = List.length l2 -> le_value l1 = le_value l2 -> l1 = l2.
Proof.
  revert l2. induction l1 as [| a l1 IH]; intros [| b l2] Hlen Hval;
    try discriminate Hlen; [reflexivity |].
  cbn [le_value] in Hval.
  pose proof (byte_value_range a). pose proof (byte_value_range b).
  assert (Hhead : Z.of_N (Byte.to_N a) = Z.of_N (Byte.to_N b)) by lia.
  assert (Htail : le_value l1 = le_value l2) by lia.
  rewrite (byte_value_inj _ _ Hhead), (IH l2); [reflexivity | | exact Htail].
  injection Hlen as Hlen. exact Hlen.
Qed.

Lemma same_bytes_eq (a b : list byte) : same_bytes a b = true <-> a = b.
Proof.
  revert b. induction a as [| x a IH]; intros [| y b]; cbn [same_bytes];
    try (split; [discriminate | discriminate]); [split; reflexivity |].
  rewrite andb_true_iff, IH. split.
  - intros [Hxy ->]. apply Byte.byte_dec_bl in Hxy. rewrite Hxy. reflexivity.
  - intros E. injection E as -> ->. split; [apply Byte.byte_dec_lb |]; reflexivity.
Qed.

Lemma complete_read_length (r : option (list byte)) (buf : list byte) :
  complete_read r = Some buf -> List.length buf = 44%nat.
Proof.
  unfold complete_read. destruct r as [bs |]; [| discriminate].
  destruct (Z.eqb_spec (Z.of_nat (List.length bs)) sizeof_f2fs_super_block) as [E | _];
    [| discriminate].
  intros H. injection H as <-. change sizeof_f2fs_super_block with 44 in E. lia.
Qed.

(** The test [sb->magic == cpu_to_le32(F2FS_SUPER_MAGIC)] on the structure
    laid over a complete record compares its first four bytes with the
    magic bytes. *)
Lemma magic_test_on_bytes (buf : list byte) :
  List.length buf = 44%nat ->
  (magic (overlay_f2fs_super_block buf) =? cpu_to_le32 F2FS_SUPER_MAGIC)
  = has_f2fs_magic buf.
Proof.
  intros Hlen. unfold has_f2fs_magic, cpu_to_le32. cbn [magic overlay_f2fs_super_block].
  assert (H4 : List.length (bytes_at 0 4 buf) = 4%nat).
  { unfold bytes_at. cbn [skipn]. rewrite length_firstn, Hlen. reflexivity. }
  destruct (same_bytes (bytes_at 0 4 buf) magic_bytes) eqn:Hsame.
  - apply same_bytes_eq in Hsame. rewrite Hsame. reflexivity.
  - apply Z.eqb_neq. intros Hval.
    assert (Heq : bytes_at 0 4 buf = magic_bytes).
    { apply le_value_inj; [rewrite H4; reflexivity | rewrite Hval; reflexivity]. }
    apply same_bytes_eq in Heq. rewrite Heq in Hsame. discriminate.
Qed.

Lemma run_release_then_ret (A : Type) (fd : Z) (a : A) (s : S) :
  result (run K (unique_fd_release fd ;; Ret a) s) = a.
Proof.
  unfold unique_fd_release. destruct (fd =? -1); cbn; [reflexivity |].
  destruct (K (sys_close fd) s). reflexivity.
Qed.

(** [read_f2fs_sb] returns the structure laid over the record the lookup
    accepts. *)
Lemma read_f2fs_sb_result (s s1 s2 s3 : S) (blk : string) (fd : Z)
    (first second : option (list byte)) :
  K (sys_open blk) s = (fd, s1) ->
  K (sys_pread fd sizeof_f2fs_super_block F2FS_SUPER_OFFSET) s1 = (first, s2) ->
  K (sys_pread fd sizeof_f2fs_super_block (F2FS_BLKSIZE + F2FS_SUPER_OFFSET)) s2
    = (second, s3) ->
  result (run K (read_f2fs_sb blk) s)
  = option_map overlay_f2fs_super_block (accepted_record first second).
Proof.
  intros Hopen Hfirst Hsecond. unfold read_f2fs_sb, accepted_record.
  cbn [bind call run]. rewrite Hopen. cbn [bind call run result]. rewrite Hfirst.
  cbn [result].
  destruct (complete_read first) as [buf1 |] eqn:Hc1.
  - rewrite (@magic_test_on_bytes buf1 (@complete_read_length first buf1 Hc1)).
    destruct (has_f2fs_magic buf1).
    + apply run_release_then_ret.
    + cbn [bind call run result]. rewrite Hsecond. cbn [result].
      destruct (complete_read second) as [buf2 |] eqn:Hc2.
      * rewrite run_release_then_ret.
        rewrite (@magic_test_on_bytes buf2 (@complete_read_length second buf2 Hc2)).
        destruct (has_f2fs_magic buf2); reflexivity.
      * apply run_release_then_ret.
  - apply run_release_then_ret.
Qed.

(** C2, amended: [get_f2fs_size] finds the record the lookup accepts (the
    one at offset 1024 when its first four bytes are the magic, else the
    one at offset 4096 + 1024 under the same condition, none after an
    incomplete read) and returns its block count times 4096 modulo 2^64,
    which is the product itself for a count below 2^52; without an accepted
    record it returns 0.  No process is run. *)
Theorem get_f2fs_size_follows_lookup :
  forall (s s1 s2 s3 : S) (blk_device : string) (fd : Z)
         (first second : option (list byte)),
    K (sys_open blk_device) s = (fd, s1) ->
    K (sys_pread fd 44 1024) s1 = (first, s2) ->
    K (sys_pread fd 44 (4096 + 1024)) s2 = (second, s3) ->
    result (run K (get_f2fs_size blk_device) s)
      = match accepted_record first second with
        | Some record => wrap64 (block_count_field record * 4096)
        | None => 0
        end
    /\ spawned (run K (get_f2fs_size blk_device) s) = []
    /\ (forall record,
           accepted_record first second = Some record ->
           block_count_field record < 2 ^ 52 ->
           wrap64 (block_count_field record * 4096) = block_count_field record * 4096).
Proof.
  intros s s1 s2 s3 blk fd first second Hopen Hfirst Hsecond.
  split; [| split].
  - unfold get_f2fs_size. rewrite run_bind. cbv zeta.
    rewrite (read_f2fs_sb_result Hopen Hfirst Hsecond).
    destruct (accepted_record first second) as [record |]; reflexivity.
  - apply Only_not_exec_spawned. apply get_f2fs_size_quiet.
  - intros record _ Hsmall. apply wrap64_small.
    pose proof (le_value_nonneg (bytes_at 36 8 record)).
    unfold block_count_field in *. lia.
Qed.

(** *** Devices that cannot be opened or read *)

Lemma read_f2fs_sb_bad_descriptor (s : S) (blk : string) :
  refuses_bad_descriptors K ->
  fst (K (sys_open blk) s) < 0 ->
  result (run K (read_f2fs_sb blk) s) = None.
Proof.
  intros Hbad Hfd.
  destruct (K (sys_open blk) s) as [fd s1] eqn:Hopen. cbn [fst] in Hfd.
  destruct (K (sys_pread fd sizeof_f2fs_super_block F2FS_SUPER_OFFSET) s1)
    as [first s2] eqn:Hfirst.
  destruct (K (sys_pread fd sizeof_f2fs_super_block (F2FS_BLKSIZE + F2FS_SUPER_OFFSET)) s2)
    as [second s3] eqn:Hsecond.
  rewrite (read_f2fs_sb_result Hopen Hfirst Hsecond).
  pose proof (Hbad fd sizeof_f2fs_super_block F2FS_SUPER_OFFSET s1 Hfd) as Hnone.
  rewrite Hfirst in Hnone. cbn [fst] in Hnone. subst first. reflexivity.
Qed.

Lemma get_f2fs_size_without_superblock (s : S) (blk : string) :
  result (run K (read_f2fs_sb blk) s) = None ->
  result (run K (get_f2fs_size blk) s) = 0.
Proof.
  intros Hnone. unfold get_f2fs_size. rewrite run_bind. cbv zeta.
  rewrite Hnone. reflexivity.
Qed.

Lemma get_dev_sz_open_fails (s : S) (blk : string) (dev_sz : Z) :
  fst (K (sys_open blk) s) < 0 ->
  result (run K (get_dev_sz blk dev_sz) s) = (-1, dev_sz).
Proof.
  intros Hfd. unfold get_dev_sz. cbn [bind call run].
  destruct (K (sys_open blk) s) as [fd s1]. cbn [fst] in Hfd. cbn [result].
  apply Z.ltb_lt in Hfd. rewrite Hfd.
  apply run_release_then_ret.
Qed.

(** With a declared length of 0 a failing open is met first by
    [get_dev_sz]: [resize_f2fs] returns -1 and the superblock reader is
    not reached. *)
Lemma resize_f2fs_size_query_fails (s : S) (blk : string) (cf : bool) :
  fst (K (sys_open blk) s) < 0 ->
  result (run K (resize_f2fs CRYPT_FOOTER_OFFSET blk 0 cf) s) = -1
  /\ spawned (run K (resize_f2fs CRYPT_FOOTER_OFFSET blk 0 cf) s) = [].
Proof.
  intros Hfd. unfold resize_f2fs. cbn [Z.eqb].
  rewrite run_bind. cbv zeta.
  rewrite (Only_not_exec_spawned K s (get_dev_sz_quiet blk 0)).
  rewrite (get_dev_sz_open_fails s blk 0 Hfd). cbn. split; reflexivity.
Qed.

(** C9: when the open fails inside the superblock reader, that is when
    [resize_f2fs] has come to the reader (the declared length is not 0, or
    the size was read from the device) and the kernel then answers a
    negative descriptor, the reader goes on without a check, its reads on
    that descriptor fail, it reports no superblock, [get_f2fs_size]
    returns 0 and [resize_f2fs] returns 0 without running any process: no
    error is propagated.  The same holds on a device that opens and whose
    reads leave the reader without a superblock. *)
Theorem resize_f2fs_unreadable_device :
  forall (s s1 : S) (fs_blkdev : string) (declared D : Z) (crypt_footer : bool),
    let o := run K (resize_f2fs CRYPT_FOOTER_OFFSET fs_blkdev declared crypt_footer) s in
    dev_sz_resolved K fs_blkdev declared s D s1 ->
    (refuses_bad_descriptors K /\ fst (K (sys_open fs_blkdev) s1) < 0)
    \/ result (run K (read_f2fs_sb fs_blkdev) s1) = None ->
    result (run K (read_f2fs_sb fs_blkdev) s1) = None /\
    result (run K (get_f2fs_size fs_blkdev) s1) = 0 /\
    result o = 0 /\ spawned o = [].
Proof.
  intros s s1 blk declared D cf o Hres Hunread.
  assert (Hnone : result (run K (read_f2fs_sb blk) s1) = None).
  { destruct Hunread as [[Hbad Hfd] | Hnone]; [| exact Hnone].
    apply read_f2fs_sb_bad_descriptor; assumption. }
  pose proof (get_f2fs_size_without_superblock s1 blk Hnone) as Hzero.
  split; [exact Hnone |]. split; [exact Hzero |].
  apply (proj1 (resize_f2fs_cases cf Hres)). left. exact Hzero.
Qed.

(** *** The crypto footer on a small device *)

(** C10, amended: with the crypto footer requested and a size [D] below
    CRYPT_FOOTER_OFFSET the subtraction wraps to [D + 2^64 - offset].
    [format_ext4] and [format_f2fs] pass that number over 4096 to the
    formatter.  [resize_f2fs] passes it over 512 to resize.f2fs when a
    superblock is found and the number exceeds the current size plus
    4096 * 1024 (modulo 2^64); otherwise it returns 0 and runs nothing. *)
Theorem crypt_footer_underflow_wraps :
  forall (s s1 : S) (fs_blkdev fs_mnt_point : string) (declared D : Z)
         (needs_projid needs_metadata_csum needs_casefold fs_compress : bool),
    0 <= D < CRYPT_FOOTER_OFFSET ->
    CRYPT_FOOTER_OFFSET < 2 ^ 64 ->
    let usable := D + 2 ^ 64 - CRYPT_FOOTER_OFFSET in
    drop_crypt_footer CRYPT_FOOTER_OFFSET true D = usable
    /\ 2 ^ 64 - CRYPT_FOOTER_OFFSET <= usable < 2 ^ 64
    /\ (result (run K (get_dev_sz fs_blkdev 0) s) = (0, D) ->
        exists argv rc rest,
          spawned (run K (format_ext4 CRYPT_FOOTER_OFFSET fs_blkdev fs_mnt_point
                            true needs_projid needs_metadata_csum) s)
            = (argv, rc) :: rest /\
          program_of argv = "/system/bin/mke2fs" /\
          last_arg argv = to_string (usable / 4096))
    /\ (dev_sz_resolved K fs_blkdev declared s D s1 ->
        (exists argv rc,
            spawned (run K (format_f2fs CRYPT_FOOTER_OFFSET fs_blkdev declared
                              true needs_projid needs_casefold fs_compress) s)
              = [(argv, rc)] /\
            program_of argv = "/system/bin/make_f2fs" /\
            last_arg argv = to_string (usable / 4096))
        /\
        let f2fs_sz := result (run K (get_f2fs_size fs_blkdev) s1) in
        let o := run K (resize_f2fs CRYPT_FOOTER_OFFSET fs_blkdev declared true) s in
        (f2fs_sz = 0 \/ usable <= wrap64 (f2fs_sz + 4096 * 1024) ->
         result o = 0 /\ spawned o = [])
        /\
        (f2fs_sz <> 0 /\ wrap64 (f2fs_sz + 4096 * 1024) < usable ->
         exists rc,
           spawned o = [(["/system/bin/resize.f2fs"; "-t"; to_string (usable / 512);
                          fs_blkdev], rc)]
           /\ result o = rc)).
Proof.
  intros s s1 blk mnt declared D projid csum casefold compress HD Hoff usable.
  assert (Hwrap : drop_crypt_footer CRYPT_FOOTER_OFFSET true D = usable).
  { unfold drop_crypt_footer. apply wrap64_underflow; assumption. }
  split; [exact Hwrap |]. split; [unfold usable; lia |]. split.
  - intros Hres.
    destruct (format_ext4_sized_run s blk mnt true projid csum Hres) as (rc & rest & Hrun).
    eexists _, rc, rest. split; [exact Hrun |].
    rewrite Hwrap. apply mke2fs_args_shape.
  - intros Hres. split.
    + rewrite (format_f2fs_resolved true projid casefold compress Hres).
      destruct (format_f2fs_sized_run s1 blk D true projid casefold compress)
        as (rc & Hrun & _).
      eexists _, rc. split; [exact Hrun |].
      rewrite Hwrap. apply make_f2fs_args_shape.
    + pose proof (resize_f2fs_cases true Hres) as Hcases. cbv zeta in Hcases.
      rewrite Hwrap in Hcases. exact Hcases.
Qed.

End Properties.

(** ** The theorems on the bench *)


(** The scenario of the specification: an f2fs entry of length 0 with
    compression, no crypto footer, on a device of 1,073,741,824 bytes. *)
Example format_f2fs_scenario :
  spawned (run (Bench.kernel Bench.blank)
             (format_f2fs Bench.footer "/dev/x" 0 false false false true) tt)
  = [(["/system/bin/make_f2fs"; "-g"; "android"; "-O"; "compression"; "-O";
       "extra_attr"; "/dev/x"; "262144"], 0)].
Proof. vm_compute. reflexivity. Qed.

(** Unsupported types on the bench: "ntfs" for the format, "ext4" for the
    resize. *)
Lemma unsupported_fs_type_witness :
  ~ In (fs_type (Bench.entry "/data" "ntfs" 0)) ["ext4"; "f2fs"; "vfat"]
  /\ result (run (Bench.kernel Bench.blank)
               (fs_mgr_do_format Bench.footer (Bench.entry "/data" "ntfs" 0) false) tt) = -22
  /\ spawned (run (Bench.kernel Bench.blank)
                (fs_mgr_do_format Bench.footer (Bench.entry "/data" "ntfs" 0) false) tt) = []
  /\ fs_type (Bench.entry "/data" "ext4" 0) <> "f2fs"
  /\ fs_mgr_do_resize Bench.footer (Bench.entry "/data" "ext4" 0) true = Ret (-22)
  /\ spawned (run (Bench.kernel Bench.blank)
                (fs_mgr_do_resize Bench.footer (Bench.entry "/data" "ext4" 0) true) tt) = [].
Proof.
  assert (Hntfs : ~ In (fs_type (Bench.entry "/data" "ntfs" 0)) ["ext4"; "f2fs"; "vfat"]).
  { simpl. intros [H | [H | [H | H]]]; try discriminate H. exact H. }
  assert (Hext4 : fs_type (Bench.entry "/data" "ext4" 0) <> "f2fs").
  { simpl. discriminate. }
  destruct (@unsupported_fs_type_is_rejected Bench.footer unit (Bench.kernel Bench.blank) tt
              (Bench.entry "/data" "ntfs" 0) false) as [Hformat _].
  destruct (@unsupported_fs_type_is_rejected Bench.footer unit (Bench.kernel Bench.blank) tt
              (Bench.entry "/data" "ext4" 0) true) as [_ Hresize].
  destruct (Hformat Hntfs) as (_ & Hrc & Hnone).
  destruct (Hresize Hext4) as (Hret & _ & Hnone').
  exact (conj Hntfs (conj Hrc (conj Hnone (conj Hext4 (conj Hret Hnone'))))).
Defined.

(** C1 fails as stated on two inputs.  With the crypto footer on a device
    of 4096 bytes, mke2fs is given 4503599627370493, not the decimal string
    of (4096 - 0x4000) / 4096.  With a declared length of 8192 on a device
    of 1 GiB and no crypto footer, make_f2fs is given 2, not the decimal
    string of 1073741824 / 4096. *)
Lemma block_count_counterexample :
  (result (run (Bench.kernel (Bench.sized 4096)) (get_dev_sz "/dev/x" 0) tt) = (0, 4096)
   /\ spawned (run (Bench.kernel (Bench.sized 4096))
                 (format_ext4 Bench.footer "/dev/x" "/data" true false false) tt)
      = [(["/system/bin/mke2fs"; "-t"; "ext4"; "-b"; "4096"; "/dev/x";
           "4503599627370493"], 0);
         (["/system/bin/e2fsdroid"; "-e"; "-a"; "/data"; "/dev/x"], 0)]
   /\ "4503599627370493" <> to_string ((4096 - Bench.footer) / 4096))
  /\
  (result (run (Bench.kernel Bench.blank) (get_dev_sz "/dev/x" 0) tt) = (0, 1073741824)
   /\ spawned (run (Bench.kernel Bench.blank)
                 (format_f2fs Bench.footer "/dev/x" 8192 false false false false) tt)
      = [(["/system/bin/make_f2fs"; "-g"; "android"; "/dev/x"; "2"], 0)]
   /\ "2" <> to_string ((1073741824 - 0) / 4096)).
Proof.
  split; (split; [vm_compute; reflexivity |]);
    (split; [vm_compute; reflexivity | vm_compute; discriminate]).
Qed.

(** The block counts on the bench: a device of 1 GiB, the crypto footer
    requested, a declared length of 0. *)
Lemma format_block_count_witness :
  0 <= 1073741824 < 2 ^ 64
  /\ result (run (Bench.kernel Bench.blank) (get_dev_sz "/dev/x" 0) tt) = (0, 1073741824)
  /\ dev_sz_resolved (Bench.kernel Bench.blank) "/dev/x" 0 tt 1073741824 tt
  /\ 0 <= Bench.footer <= 1073741824
  /\ (exists argv rc rest,
         spawned (run (Bench.kernel Bench.blank)
                    (format_ext4 Bench.footer "/dev/x" "/data" true false false) tt)
           = (argv, rc) :: rest /\
         program_of argv = "/system/bin/mke2fs" /\
         last_arg argv = to_string (wrap64 (1073741824 - Bench.footer) / 4096))
  /\ (exists argv rc,
         spawned (run (Bench.kernel Bench.blank)
                    (format_f2fs Bench.footer "/dev/x" 0 true false false false) tt)
           = [(argv, rc)] /\
         program_of argv = "/system/bin/make_f2fs" /\
         last_arg argv = to_string (wrap64 (1073741824 - Bench.footer) / 4096))
  /\ wrap64 (1073741824 - Bench.footer) / 4096 = (1073741824 - Bench.footer) / 4096.
Proof.
  assert (HD : 0 <= 1073741824 < 2 ^ 64) by (split; [discriminate | reflexivity]).
  assert (Hsz : result (run (Bench.kernel Bench.blank) (get_dev_sz "/dev/x" 0) tt)
                = (0, 1073741824)) by (vm_compute; reflexivity).
  assert (Hres : dev_sz_resolved (Bench.kernel Bench.blank) "/dev/x" 0 tt 1073741824 tt)
    by (right; repeat split; vm_compute; reflexivity).
  assert (Hfit : 0 <= Bench.footer <= 1073741824) by (split; discriminate).
  destruct (@format_block_count Bench.footer unit (Bench.kernel Bench.blank) tt tt
              "/dev/x" "/data" 0 1073741824 true false false false false HD)
    as (Hext4 & Hf2fs & Hexact).
  exact (conj HD (conj Hsz (conj Hres (conj Hfit
           (conj (Hext4 Hsz) (conj (Hf2fs Hres) (Hexact Hfit))))))).
Defined.

(** C2 fails as stated on a superblock that declares 2^52 blocks: the
    record at offset 1024 is accepted, and the size returned is 0, not
    2^52 * 4096. *)
Lemma f2fs_size_counterexample :
  option_map block_count
    (result (run (Bench.kernel (Bench.with_f2fs (2 ^ 52))) (read_f2fs_sb "/dev/x") tt))
    = Some (2 ^ 52)
  /\ result (run (Bench.kernel (Bench.with_f2fs (2 ^ 52))) (get_f2fs_size "/dev/x") tt) = 0
  /\ 0 <> 2 ^ 52 * 4096.
Proof.
  split; [vm_compute; reflexivity |]. split; [vm_compute; reflexivity | discriminate].
Qed.

(** The size of an f2fs of 1000 blocks on the bench. *)
Lemma get_f2fs_size_witness :
  let K := Bench.kernel (Bench.with_f2fs 1000) in
  let first := Some (Bench.superblock_bytes F2FS_SUPER_MAGIC 1000) in
  let second := Some (Bench.superblock_bytes F2FS_SUPER_MAGIC 1000) in
  K (sys_open "/dev/x") tt = (3, tt)
  /\ K (sys_pread 3 44 1024) tt = (first, tt)
  /\ K (sys_pread 3 44 (4096 + 1024)) tt = (second, tt)
  /\ accepted_record first second = first
  /\ block_count_field (Bench.superblock_bytes F2FS_SUPER_MAGIC 1000) < 2 ^ 52
  /\ result (run K (get_f2fs_size "/dev/x") tt)
       = match accepted_record first second with
         | Some record => wrap64 (block_count_field record * 4096)
         | None => 0
         end
  /\ spawned (run K (get_f2fs_size "/dev/x") tt) = []
  /\ wrap64 (block_count_field (Bench.superblock_bytes F2FS_SUPER_MAGIC 1000) * 4096)
       = block_count_field (Bench.superblock_bytes F2FS_SUPER_MAGIC 1000) * 4096.
Proof.
  intros K first second.
  assert (Hopen : K (sys_open "/dev/x") tt = (3, tt)) by (vm_compute; reflexivity).
  assert (Hfirst : K (sys_pread 3 44 1024) tt = (first, tt)) by (vm_compute; reflexivity).
  assert (Hsecond : K (sys_pread 3 44 (4096 + 1024)) tt = (second, tt))
    by (vm_compute; reflexivity).
  assert (Hacc : accepted_record first second = first) by (vm_compute; reflexivity).
  assert (Hsmall : block_count_field (Bench.superblock_bytes F2FS_SUPER_MAGIC 1000) < 2 ^ 52)
    by (vm_compute; reflexivity).
  destruct (@get_f2fs_size_follows_lookup unit K tt tt tt tt "/dev/x" 3 first second
              Hopen Hfirst Hsecond) as (Hsize & Hquiet & Hexact).
  exact (conj Hopen (conj Hfirst (conj Hsecond (conj Hacc (conj Hsmall
           (conj Hsize (conj Hquiet (Hexact _ Hacc Hsmall)))))))).
Defined.

(** C3 fails as stated on two inputs.  On a superblock that declares
    2^52 - 1 blocks the current size is 2^64 - 4096, a target of 8 MiB does
    not exceed it plus 4 MiB, and resize.f2fs is run all the same, the sum
    having wrapped to 4190208.  On a device without a superblock whose size
    cannot be read, with a declared length of 0, the result is -1, not
    0. *)
Lemma resize_decision_counterexample :
  (result (run (Bench.kernel (Bench.with_f2fs (2 ^ 52 - 1))) (get_f2fs_size "/dev/x") tt)
     = 2 ^ 64 - 4096
   /\ 8388608 <= (2 ^ 64 - 4096) + 4096 * 1024
   /\ wrap64 ((2 ^ 64 - 4096) + 4096 * 1024) = 4190208
   /\ spawned (run (Bench.kernel (Bench.with_f2fs (2 ^ 52 - 1)))
                 (resize_f2fs Bench.footer "/dev/x" 8388608 false) tt)
      = [(["/system/bin/resize.f2fs"; "-t"; "16384"; "/dev/x"], 0)])
  /\
  (result (run (Bench.kernel Bench.unsized) (get_f2fs_size "/dev/x") tt) = 0
   /\ run (Bench.kernel Bench.unsized) (resize_f2fs Bench.footer "/dev/x" 0 false) tt
      = {| result := -1; final := tt; spawned := [] |}).
Proof.
  split.
  - split; [vm_compute; reflexivity |]. split; [discriminate |].
    split; vm_compute; reflexivity.
  - split; vm_compute; reflexivity.
Qed.

(** The resize decision on the bench: an f2fs of 1000 blocks on a device
    of 1 GiB is resized; asked to become 4 MiB it is left alone. *)
Lemma resize_f2fs_decision_witness :
  let K := Bench.kernel (Bench.with_f2fs 1000) in
  0 <= 1073741824 < 2 ^ 64
  /\ dev_sz_resolved K "/dev/x" 0 tt 1073741824 tt
  /\ result (run K (get_f2fs_size "/dev/x") tt) = 4096000
  /\ 4096000 + 4096 * 1024 < 1073741824
  /\ (exists rc,
         spawned (run K (resize_f2fs Bench.footer "/dev/x" 0 false) tt)
           = [(["/system/bin/resize.f2fs"; "-t"; to_string (1073741824 / 512); "/dev/x"], rc)]
         /\ result (run K (resize_f2fs Bench.footer "/dev/x" 0 false) tt) = rc)
  /\ 0 <= 4194304 < 2 ^ 64
  /\ dev_sz_resolved K "/dev/x" 4194304 tt 4194304 tt
  /\ result (run K (resize_f2fs Bench.footer "/dev/x" 4194304 false) tt) = 0
  /\ spawned (run K (resize_f2fs Bench.footer "/dev/x" 4194304 false) tt) = []
  /\ wrap64 (4096000 + 4096 * 1024) = 4096000 + 4096 * 1024.
Proof.
  intros K.
  assert (HD : 0 <= 1073741824 < 2 ^ 64) by (split; [discriminate | reflexivity]).
  assert (Hres : dev_sz_resolved K "/dev/x" 0 tt 1073741824 tt)
    by (right; repeat split; vm_compute; reflexivity).
  assert (Hsz : result (run K (get_f2fs_size "/dev/x") tt) = 4096000)
    by (vm_compute; reflexivity).
  assert (Hlt : 4096000 + 4096 * 1024 < 1073741824) by reflexivity.
  assert (HD' : 0 <= 4194304 < 2 ^ 64) by (split; [discriminate | reflexivity]).
  assert (Hres' : dev_sz_resolved K "/dev/x" 4194304 tt 4194304 tt)
    by (left; repeat split; discriminate).
  destruct (@resize_f2fs_decision Bench.footer unit K tt tt "/dev/x" 0 1073741824 false
              HD Hres) as (_ & Hgo & Hsum).
  destruct (@resize_f2fs_decision Bench.footer unit K tt tt "/dev/x" 4194304 4194304 false
              HD' Hres') as (Hskip & _ & _).
  rewrite Hsz in Hgo, Hsum, Hskip.
  assert (Hnz : 4096000 <> 0 /\ wrap64 (4096000 + 4096 * 1024) < wrap64 (1073741824 - 0))
    by (split; [discriminate | vm_compute; reflexivity]).
  assert (Hle : 4096000 = 0 \/ wrap64 (4194304 - 0) <= wrap64 (4096000 + 4096 * 1024))
    by (right; vm_compute; discriminate).
  destruct (Hskip Hle) as [Hzero Hnone].
  exact (conj HD (conj Hres (conj Hsz (conj Hlt (conj (Hgo Hnz)
           (conj HD' (conj Hres' (conj Hzero (conj Hnone (Hsum eq_refl)))))))))).
Defined.

(** C4 fails as stated on an entry with a declared length of 409600 on a
    device of 1 GiB: formatted as f2fs the block count is 100, formatted as
    ext4 it is 262144. *)
Lemma f2fs_ext4_block_count_counterexample :
  spawned (run (Bench.kernel Bench.blank)
             (fs_mgr_do_format Bench.footer (Bench.entry "/data" "f2fs" 409600) false) tt)
    = [(["/system/bin/make_f2fs"; "-g"; "android"; "/dev/x"; "100"], 0)]
  /\ spawned (run (Bench.kernel Bench.blank)
                (fs_mgr_do_format Bench.footer (Bench.entry "/data" "ext4" 409600) false) tt)
     = [(["/system/bin/mke2fs"; "-t"; "ext4"; "-b"; "4096"; "/dev/x"; "262144"], 0);
        (["/system/bin/e2fsdroid"; "-e"; "-a"; "/data"; "/dev/x"], 0)]
  /\ "100" <> "262144".
Proof.
  split; [vm_compute; reflexivity |]. split; [vm_compute; reflexivity | discriminate].
Qed.

(** The same block count for f2fs and ext4 on the bench, for an entry with
    a declared length of 0. *)
Lemma f2fs_block_count_matches_ext4_witness :
  let K := Bench.kernel Bench.blank in
  let entry := Bench.entry "/data" "f2fs" 0 in
  0 <= 1073741824 < 2 ^ 64
  /\ result (run K (get_dev_sz (blk_device entry) 0) tt) = (0, 1073741824)
  /\ (wrap64 (length entry) = 0 \/ wrap64 (length entry) = 1073741824)
  /\ exists argv_f2fs rc_f2fs argv_ext4 rc_ext4 rest,
       spawned (run K (format_f2fs Bench.footer (blk_device entry)
                         (wrap64 (length entry)) true false false
                         (fs_compress (fs_mgr_flags entry))) tt)
         = [(argv_f2fs, rc_f2fs)] /\
       spawned (run K (format_ext4 Bench.footer (blk_device entry)
                         (mount_point entry) true false
                         (ext_meta_csum (fs_mgr_flags entry))) tt)
         = (argv_ext4, rc_ext4) :: rest /\
       last_arg argv_f2fs = last_arg argv_ext4 /\
       last_arg argv_ext4 = to_string (wrap64 (1073741824 - Bench.footer) / 4096).
Proof.
  intros K entry.
  assert (HD : 0 <= 1073741824 < 2 ^ 64) by (split; [discriminate | reflexivity]).
  assert (Hsz : result (run K (get_dev_sz (blk_device entry) 0) tt) = (0, 1073741824))
    by (vm_compute; reflexivity).
  assert (Hlen : wrap64 (length entry) = 0 \/ wrap64 (length entry) = 1073741824)
    by (left; vm_compute; reflexivity).
  exact (conj HD (conj Hsz (conj Hlen
           (@f2fs_block_count_matches_ext4 Bench.footer unit K tt entry 1073741824
              true false false HD Hsz Hlen)))).
Defined.

(** The feature options on the bench: project IDs and compression without
    the metadata checksum or case folding. *)
Lemma feature_options_witness :
  let K := Bench.kernel Bench.blank in
  let mke2fs := ["/system/bin/mke2fs"; "-t"; "ext4"; "-b"; "4096"; "-I"; "512";
                 "/dev/x"; "262144"] in
  let make_f2fs := ["/system/bin/make_f2fs"; "-g"; "android"; "-O";
                    "project_quota,extra_attr"; "-O"; "compression"; "-O"; "extra_attr";
                    "/dev/x"; "262144"] in
  spawned (run K (format_ext4 Bench.footer "/dev/x" "/data" false true false) tt)
    = (mke2fs, 0) :: [(e2fsdroid_args "/data" "/dev/x", 0)]
  /\ spawned (run K (format_f2fs Bench.footer "/dev/x" 0 false true false true) tt)
     = (make_f2fs, 0) :: []
  /\ "/dev/x" <> "-I" /\ "/dev/x" <> "-O"
  /\ (contains ["-I"; "512"] mke2fs = true /\
      contains ["-O"; "metadata_csum"; "-O"; "64bit"; "-O"; "extent"] mke2fs = false)
  /\ (contains ["-O"; "project_quota,extra_attr"] make_f2fs = true /\
      contains ["-O"; "casefold"; "-C"; "utf8"] make_f2fs = false /\
      contains ["-O"; "compression"; "-O"; "extra_attr"] make_f2fs = true).
Proof.
  intros K mke2fs make_f2fs.
  assert (Hext4 : spawned (run K (format_ext4 Bench.footer "/dev/x" "/data" false true false) tt)
                  = (mke2fs, 0) :: [(e2fsdroid_args "/data" "/dev/x", 0)])
    by (vm_compute; reflexivity).
  assert (Hf2fs : spawned (run K (format_f2fs Bench.footer "/dev/x" 0 false true false true) tt)
                  = (make_f2fs, 0) :: [])
    by (vm_compute; reflexivity).
  assert (HI : "/dev/x" <> "-I") by discriminate.
  assert (HO : "/dev/x" <> "-O") by discriminate.
  destruct (@feature_options_follow_flags Bench.footer unit K tt "/dev/x" "/data" 0
              false true false false true) as [Hmke2fs Hmake].
  destruct (Hmke2fs _ _ _ Hext4) as (opts1 & sz1 & _ & _ & _ & _ & Hwhole1).
  destruct (Hmake _ _ _ Hf2fs) as (opts2 & sz2 & _ & _ & _ & _ & _ & Hwhole2).
  exact (conj Hext4 (conj Hf2fs (conj HI (conj HO (conj (Hwhole1 HI HO) (Hwhole2 HO)))))).
Defined.

(** Away from "/data" on the bench: the run is the same whether every
    property reads true or every property reads false. *)
Lemma format_off_data_witness :
  let entry := Bench.entry "/mnt/vendor/persist" "f2fs" 0 in
  let K1 := with_properties (Bench.kernel Bench.blank) (Bench.answering true) in
  let K2 := with_properties (Bench.kernel Bench.blank) (Bench.answering false) in
  mount_point entry <> "/data"
  /\ run K1 (fs_mgr_do_format Bench.footer entry false) tt
     = run K2 (fs_mgr_do_format Bench.footer entry false) tt
  /\ Only not_property (fs_mgr_do_format Bench.footer entry false).
Proof.
  intros entry K1 K2.
  assert (Hmnt : mount_point entry <> "/data") by (simpl; discriminate).
  destruct (@format_off_data_ignores_properties Bench.footer unit (Bench.kernel Bench.blank)
              tt entry false (Bench.answering true) (Bench.answering false) Hmnt)
    as (_ & Hquiet & Hsame).
  exact (conj Hmnt (conj Hsame Hquiet)).
Defined.

(** [format_ext4] on the bench, on a blank device of 1 GiB: where mke2fs
    fails with 1 the result is 1 and e2fsdroid is not run; where mke2fs
    succeeds and e2fsdroid fails with 2 both are run and the result is
    2. *)
Lemma format_ext4_mke2fs_witness :
  let Kf := Bench.kernel Bench.blank_mke2fs_failing in
  let Kg := Bench.kernel Bench.blank_e2fsdroid_failing in
  let mke2fs := mke2fs_args "/dev/x" "262144" false false in
  let e2fsdroid := ["/system/bin/e2fsdroid"; "-e"; "-a"; "/data"; "/dev/x"] in
  let failing := run Kf (format_ext4 Bench.footer "/dev/x" "/data" false false false) tt in
  let passing := run Kg (format_ext4 Bench.footer "/dev/x" "/data" false false false) tt in
  (result (run Kf (get_dev_sz "/dev/x" 0) tt) = (0, 1073741824)
   /\ Kf (logwrap_fork_execvp mke2fs) tt = (1, tt)
   /\ 1 <> 0
   /\ result failing = 1 /\ spawned failing = [(mke2fs, 1)] /\ final failing = tt)
  /\ (result (run Kg (get_dev_sz "/dev/x" 0) tt) = (0, 1073741824)
      /\ Kg (logwrap_fork_execvp mke2fs) tt = (0, tt)
      /\ Kg (logwrap_fork_execvp e2fsdroid) tt = (2, tt)
      /\ result passing = 2
      /\ spawned passing = [(mke2fs, 0); (e2fsdroid, 2)]
      /\ final passing = tt).
Proof.
  intros Kf Kg mke2fs e2fsdroid failing passing.
  assert (Hszf : result (run Kf (get_dev_sz "/dev/x" 0) tt) = (0, 1073741824))
    by (vm_compute; reflexivity).
  assert (Hszg : result (run Kg (get_dev_sz "/dev/x" 0) tt) = (0, 1073741824))
    by (vm_compute; reflexivity).
  assert (Hfinf : final (run Kf (get_dev_sz "/dev/x" 0) tt) = tt) by reflexivity.
  assert (Hfing : final (run Kg (get_dev_sz "/dev/x" 0) tt) = tt) by reflexivity.
  assert (Hmf : Kf (logwrap_fork_execvp mke2fs) tt = (1, tt)) by reflexivity.
  assert (Hmg : Kg (logwrap_fork_execvp mke2fs) tt = (0, tt)) by reflexivity.
  assert (Heg : Kg (logwrap_fork_execvp e2fsdroid) tt = (2, tt)) by reflexivity.
  assert (Hnz : 1 <> 0) by discriminate.
  destruct (@format_ext4_stops_on_mke2fs_failure Bench.footer unit Kf tt tt "/dev/x"
              "/data" 1073741824 false false false Hszf Hfinf) as (_ & Hfails & _).
  destruct (@format_ext4_stops_on_mke2fs_failure Bench.footer unit Kg tt tt "/dev/x"
              "/data" 1073741824 false false false Hszg Hfing) as (_ & _ & Hpasses).
  exact (conj (conj Hszf (conj Hmf (conj Hnz (Hfails 1 tt Hmf Hnz))))
              (conj Hszg (conj Hmg (conj Heg (Hpasses tt Hmg 2 tt Heg))))).
Defined.

(** On a device that cannot be opened, with a declared length of 0, it is
    [get_dev_sz] that meets the failing open: the resize returns -1 and
    the superblock reader is not reached. *)
Example unopenable_resize_with_length_0 :
  fst (Bench.kernel Bench.unopenable (sys_open "/dev/x") tt) = -1
  /\ run (Bench.kernel Bench.unopenable)
       (fs_mgr_do_resize Bench.footer (Bench.entry "/data" "f2fs" 0) false) tt
     = {| result := -1; final := tt; spawned := [] |}
  /\ offsets_read (calls (Bench.kernel Bench.unopenable)
                     (fs_mgr_do_resize Bench.footer (Bench.entry "/data" "f2fs" 0) false) tt)
     = [].
Proof. repeat split. Qed.

Lemma bench_refuses_bad_descriptors (b : Bench.Board) :
  refuses_bad_descriptors (Bench.kernel b).
Proof.
  intros fd count offset s Hfd. cbn.
  destruct (Z.eqb_spec fd 3) as [-> | _]; [discriminate Hfd | reflexivity].
Qed.

(** A device that cannot be opened, on the bench, with a declared length
    of 8 MiB: the open fails inside the reader, and the resize returns 0
    and runs nothing. *)
Lemma resize_f2fs_unreadable_witness :
  let K := Bench.kernel Bench.unopenable in
  dev_sz_resolved K "/dev/x" 8388608 tt 8388608 tt
  /\ refuses_bad_descriptors K
  /\ fst (K (sys_open "/dev/x") tt) < 0
  /\ result (run K (read_f2fs_sb "/dev/x") tt) = None
  /\ result (run K (get_f2fs_size "/dev/x") tt) = 0
  /\ result (run K (resize_f2fs Bench.footer "/dev/x" 8388608 false) tt) = 0
  /\ spawned (run K (resize_f2fs Bench.footer "/dev/x" 8388608 false) tt) = [].
Proof.
  intros K.
  assert (Hres : dev_sz_resolved K "/dev/x" 8388608 tt 8388608 tt)
    by (left; repeat split; discriminate).
  assert (Hbad : refuses_bad_descriptors K) by apply bench_refuses_bad_descriptors.
  assert (Hfd : fst (K (sys_open "/dev/x") tt) < 0) by (vm_compute; reflexivity).
  exact (conj Hres (conj Hbad (conj Hfd
           (@resize_f2fs_unreadable_device Bench.footer unit K tt tt "/dev/x"
              8388608 8388608 false Hres (or_introl (conj Hbad Hfd)))))).
Defined.

(** C10 fails as stated on a resize of a device of 4096 bytes without a
    superblock, the crypto footer requested: the size to resize to wraps
    to 2^64 - 12288, and no process is run. *)
Lemma footer_underflow_counterexample :
  result (run (Bench.kernel (Bench.sized 4096)) (get_dev_sz "/dev/x" 0) tt) = (0, 4096)
  /\ 4096 < Bench.footer
  /\ drop_crypt_footer Bench.footer true 4096 = 2 ^ 64 - 12288
  /\ run (Bench.kernel (Bench.sized 4096))
       (fs_mgr_do_resize Bench.footer (Bench.entry "/data" "f2fs" 0) true) tt
     = {| result := 0; final := tt; spawned := [] |}.
Proof.
  split; [vm_compute; reflexivity |]. split; [reflexivity |].
  split; vm_compute; reflexivity.
Qed.

(** The wrap on the bench: a device of 4096 bytes whose superblock declares
    one block, the crypto footer requested. *)
Lemma crypt_footer_underflow_witness :
  let K := Bench.kernel (Bench.small_with_f2fs 1) in
  let usable := 4096 + 2 ^ 64 - Bench.footer in
  0 <= 4096 < Bench.footer
  /\ Bench.footer < 2 ^ 64
  /\ result (run K (get_dev_sz "/dev/x" 0) tt) = (0, 4096)
  /\ dev_sz_resolved K "/dev/x" 0 tt 4096 tt
  /\ drop_crypt_footer Bench.footer true 4096 = usable
  /\ (exists argv rc rest,
         spawned (run K (format_ext4 Bench.footer "/dev/x" "/data" true false false) tt)
           = (argv, rc) :: rest /\
         program_of argv = "/system/bin/mke2fs" /\
         last_arg argv = to_string (usable / 4096))
  /\ (exists argv rc,
         spawned (run K (format_f2fs Bench.footer "/dev/x" 0 true false false false) tt)
           = [(argv, rc)] /\
         program_of argv = "/system/bin/make_f2fs" /\
         last_arg argv = to_string (usable / 4096))
  /\ (exists rc,
         spawned (run K (resize_f2fs Bench.footer "/dev/x" 0 true) tt)
           = [(["/system/bin/resize.f2fs"; "-t"; to_string (usable / 512); "/dev/x"], rc)]
         /\ result (run K (resize_f2fs Bench.footer "/dev/x" 0 true) tt) = rc).
Proof.
  intros K usable.
  assert (HD : 0 <= 4096 < Bench.footer) by (split; [discriminate | reflexivity]).
  assert (Hoff : Bench.footer < 2 ^ 64) by reflexivity.
  assert (Hsz : result (run K (get_dev_sz "/dev/x" 0) tt) = (0, 4096))
    by (vm_compute; reflexivity).
  assert (Hres : dev_sz_resolved K "/dev/x" 0 tt 4096 tt)
    by (right; repeat split; vm_compute; reflexivity).
  destruct (@crypt_footer_underflow_wraps Bench.footer unit K tt tt "/dev/x" "/data"
              0 4096 false false false false HD Hoff)
    as (Hwrap & _ & Hext4 & Hrest).
  destruct (Hrest Hres) as (Hf2fs & _ & Hgo).
  assert (Hnz : result (run K (get_f2fs_size "/dev/x") tt) <> 0 /\
                wrap64 (result (run K (get_f2fs_size "/dev/x") tt) + 4096 * 1024)
                < 4096 + 2 ^ 64 - Bench.footer)
    by (split; [vm_compute; discriminate | vm_compute; reflexivity]).
  exact (conj HD (conj Hoff (conj Hsz (conj Hres (conj Hwrap
           (conj (Hext4 Hsz) (conj Hf2fs (Hgo Hnz)))))))).
Defined.

(** ** Further properties of the file *)

Section Further.

Variable CRYPT_FOOTER_OFFSET : Z.

Variable S : Type.
Variable K : Kernel S.

(** *** Descriptors *)

Lemma calls_bind (A B : Type) (p : Prog A) (f : A -> Prog B) (s : S) :
  calls K (bind p f) s
  = calls K p s ++ calls K (f (result (run K p s))) (final (run K p s)).
Proof.
  revert s. induction p as [a | c k IH]; intros s; simpl.
  - reflexivity.
  - destruct (K c s) as [r s1]. simpl. rewrite IH. reflexivity.
Qed.

Lemma descriptors_app (t1 t2 : list Event) (held : list Z) :
  descriptors (t1 ++ t2) held
  = match descriptors t1 held with
    | Some held' => descriptors t2 held'
    | None => None
    end.
Proof.
  revert held. induction t1 as [| e t1 IH]; intros held; simpl.
  - reflexivity.
  - destruct (descriptor_step e held) as [held' |]; [apply IH | reflexivity].
Qed.

(** A program made of two parts that each give back what they hold. *)
Lemma descriptors_bind (A B : Type) (p : Prog A) (f : A -> Prog B) (s : S)
    (held : list Z) :
  descriptors (calls K p s) held = Some held ->
  (forall a s', descriptors (calls K (f a) s') held = Some held) ->
  descriptors (calls K (bind p f) s) held = Some held.
Proof.
  intros Hp Hf. rewrite calls_bind, descriptors_app, Hp. apply Hf.
Qed.

Lemma take_out_head (fd : Z) (held : list Z) : take_out fd (fd :: held) = Some held.
Proof. simpl. rewrite Z.eqb_refl. reflexivity. Qed.

Lemma holds_head (fd : Z) (held : list Z) : holds fd (fd :: held) = true.
Proof. unfold holds. simpl. rewrite Z.eqb_refl. reflexivity. Qed.

(** [~unique_fd] on a negative descriptor holds and releases nothing. *)
Lemma release_negative (fd : Z) (s : S) (held : list Z) :
  fd < 0 ->
  descriptors (calls K (unique_fd_release fd) s) held = Some held.
Proof.
  intros Hneg. unfold unique_fd_release. destruct (fd =? -1); simpl; [reflexivity |].
  destruct (K (sys_close fd) s) as [r s1]. simpl.
  apply Z.ltb_lt in Hneg. rewrite Hneg. reflexivity.
Qed.

(** [~unique_fd] on a nonnegative descriptor that is held releases it. *)
Lemma release_held (fd : Z) (s : S) (held : list Z) :
  0 <= fd ->
  descriptors (calls K (unique_fd_release fd) s) (fd :: held) = Some held.
Proof.
  intros Hpos. unfold unique_fd_release.
  destruct (Z.eqb_spec fd (-1)) as [E | _]; [lia |]. simpl.
  destruct (K (sys_close fd) s) as [r s1]. simpl.
  replace (fd <? 0) with false by (symmetry; apply Z.ltb_ge; exact Hpos).
  rewrite Z.eqb_refl. reflexivity.
Qed.

Lemma get_dev_sz_descriptors (blk : string) (d : Z) (s : S) (held : list Z) :
  descriptors (calls K (get_dev_sz blk d) s) held = Some held.
Proof.
  unfold get_dev_sz. cbn [calls descriptors descriptor_step bind call].
  destruct (K (sys_open blk) s) as [fd s1]. cbn [calls descriptors descriptor_step bind call].
  destruct (Z.ltb_spec fd 0) as [Hneg | Hpos].
  - rewrite calls_bind, descriptors_app, (release_negative _ _ Hneg). reflexivity.
  - cbn [calls descriptors descriptor_step bind call]. destruct (K (sys_ioctl_BLKGETSIZE64 fd) s1) as [r s2]. cbn [calls descriptors descriptor_step bind call].
    replace (fd <? 0) with false by (symmetry; apply Z.ltb_ge; exact Hpos).
    rewrite holds_head. cbn [orb].
    destruct r as [v |]; rewrite calls_bind, descriptors_app, (release_held _ _ Hpos);
      reflexivity.
Qed.

Lemma read_f2fs_sb_descriptors (blk : string) (s : S) (held : list Z) :
  descriptors (calls K (read_f2fs_sb blk) s) held = Some held.
Proof.
  unfold read_f2fs_sb. cbn [calls descriptors descriptor_step bind call].
  destruct (K (sys_open blk) s) as [fd s1]. cbn [calls descriptors descriptor_step bind call].
  destruct (K (sys_pread fd sizeof_f2fs_super_block F2FS_SUPER_OFFSET) s1) as [r s2].
  cbn [calls descriptors descriptor_step bind call].
  assert (Hrelease : forall (A : Type) (a : A) s',
             descriptors (calls K (unique_fd_release fd ;; Ret a) s')
               (if fd <? 0 then held else fd :: held) = Some held).
  { intros A a s'. rewrite calls_bind, descriptors_app.
    destruct (Z.ltb_spec fd 0) as [Hneg | Hpos].
    - rewrite (release_negative _ _ Hneg). reflexivity.
    - rewrite (release_held _ _ Hpos). reflexivity. }
  assert (Huse : (fd <? 0) || holds fd (if fd <? 0 then held else fd :: held) = true).
  { destruct (fd <? 0); [reflexivity |]. rewrite holds_head. reflexivity. }
  rewrite Huse.
  destruct (complete_read r) as [buf |]; [| apply Hrelease].
  destruct (magic (overlay_f2fs_super_block buf) =? cpu_to_le32 F2FS_SUPER_MAGIC);
    [apply Hrelease |].
  cbn [calls descriptors descriptor_step bind call].
  destruct (K (sys_pread fd sizeof_f2fs_super_block (F2FS_BLKSIZE + F2FS_SUPER_OFFSET)) s2)
    as [r' s3].
  cbn [calls descriptors descriptor_step bind call]. rewrite Huse.
  destruct (complete_read r') as [buf' |]; apply Hrelease.
Qed.

Lemma get_f2fs_size_descriptors (blk : string) (s : S) (held : list Z) :
  descriptors (calls K (get_f2fs_size blk) s) held = Some held.
Proof.
  unfold get_f2fs_size. apply descriptors_bind; [apply read_f2fs_sb_descriptors |].
  intros [sb |] s'; reflexivity.
Qed.

(** A process execution while nothing is held. *)
Lemma exec_descriptors (argv : list string) (s : S) :
  descriptors (calls K (call (logwrap_fork_execvp argv)) s) [] = Some [].
Proof. simpl. destruct (K (logwrap_fork_execvp argv) s). reflexivity. Qed.

Lemma format_dispatch_descriptors (entry : FstabEntry) (cf projid casefold : bool) (s : S) :
  descriptors (calls K (format_dispatch CRYPT_FOOTER_OFFSET entry cf projid casefold) s) []
  = Some [].
Proof.
  unfold format_dispatch.
  destruct (String.eqb (fs_type entry) "f2fs").
  { unfold format_f2fs, format_f2fs_sized.
    destruct (wrap64 (length entry) =? 0); [| apply exec_descriptors].
    apply descriptors_bind; [apply get_dev_sz_descriptors |].
    intros [rc d] s'. destruct (negb (rc =? 0)); [reflexivity | apply exec_descriptors]. }
  destruct (String.eqb (fs_type entry) "ext4").
  { unfold format_ext4.
    apply descriptors_bind; [apply get_dev_sz_descriptors |].
    intros [rc d] s'. destruct (negb (rc =? 0)); [reflexivity |].
    apply descriptors_bind; [apply exec_descriptors |].
    intros rc1 s1. destruct (negb (rc1 =? 0)); [reflexivity |].
    apply descriptors_bind; [apply exec_descriptors | reflexivity]. }
  destruct (String.eqb (fs_type entry) "vfat").
  { unfold format_vfat. apply descriptors_bind; [| intros; apply exec_descriptors].
    simpl. destruct (K (sys_access_X_OK "/system/bin/newfs_msdos") s). reflexivity. }
  reflexivity.
Qed.

Lemma fs_mgr_do_format_dispatch (entry : FstabEntry) (cf : bool) :
  fs_mgr_do_format CRYPT_FOOTER_OFFSET entry cf
  = ('(needs_casefold, needs_projid) <-
       (if String.eqb (mount_point entry) "/data" then
          needs_casefold <- call (GetBoolProperty "external_storage.casefold.enabled" false) ;;
          needs_projid <- call (GetBoolProperty "external_storage.projid.enabled" false) ;;
          Ret (needs_casefold, needs_projid)
        else Ret (false, false)) ;;
     format_dispatch CRYPT_FOOTER_OFFSET entry cf needs_projid needs_casefold).
Proof. reflexivity. Qed.

(** X1: in every run of [fs_mgr_do_format] and of [fs_mgr_do_resize],
    whatever the kernel answers, every nonnegative descriptor that is used
    or closed was answered by an [open] and not closed since, no
    descriptor is held when a process is executed, and none is held at the
    end. *)
Theorem descriptors_are_given_back :
  forall (s : S) (entry : FstabEntry) (crypt_footer : bool),
    descriptors (calls K (fs_mgr_do_format CRYPT_FOOTER_OFFSET entry crypt_footer) s) []
      = Some []
    /\ descriptors (calls K (fs_mgr_do_resize CRYPT_FOOTER_OFFSET entry crypt_footer) s) []
       = Some [].
Proof.
  intros s entry cf. split.
  - rewrite fs_mgr_do_format_dispatch. apply descriptors_bind.
    + destruct (String.eqb (mount_point entry) "/data"); simpl; [| reflexivity].
      destruct (K (GetBoolProperty "external_storage.casefold.enabled" false) s)
        as [c s1]. simpl.
      destruct (K (GetBoolProperty "external_storage.projid.enabled" false) s1)
        as [p s2]. reflexivity.
    + intros [c p] s'. apply format_dispatch_descriptors.
  - unfold fs_mgr_do_resize. destruct (String.eqb (fs_type entry) "f2fs"); [| reflexivity].
    unfold resize_f2fs.
    assert (Hsized : forall d s', descriptors
               (calls K (resize_f2fs_sized CRYPT_FOOTER_OFFSET (blk_device entry) d cf) s') []
               = Some []).
    { intros d s'. unfold resize_f2fs_sized.
      apply descriptors_bind; [apply get_f2fs_size_descriptors |].
      intros sz s''. destruct (_ || _); [reflexivity | apply exec_descriptors]. }
    destruct (wrap64 (length entry) =? 0); [| apply Hsized].
    apply descriptors_bind; [apply get_dev_sz_descriptors |].
    intros [rc d] s'. destruct (negb (rc =? 0)); [reflexivity | apply Hsized].
Qed.

(** *** The ways a format and a resize can go *)

Lemma format_f2fs_outcomes (s : S) (blk : string) (dev_sz : Z)
    (cf projid casefold compress : bool) :
  let o := run K (format_f2fs CRYPT_FOOTER_OFFSET blk dev_sz cf projid casefold compress) s in
  (result o = -1 /\ spawned o = [])
  \/ (exists size_str rc,
        spawned o = [(make_f2fs_args blk size_str projid casefold compress, rc)]
        /\ result o = rc).
Proof.
  cbv zeta. unfold format_f2fs.
  assert (Hsized : forall d s',
             exists size_str rc,
               spawned (run K (format_f2fs_sized CRYPT_FOOTER_OFFSET blk d cf projid
                                 casefold compress) s')
               = [(make_f2fs_args blk size_str projid casefold compress, rc)]
               /\ result (run K (format_f2fs_sized CRYPT_FOOTER_OFFSET blk d cf projid
                                   casefold compress) s') = rc).
  { intros d s'. unfold format_f2fs_sized. cbn.
    destruct (K _ s') as [rc s1]. cbn. eexists _, rc. split; reflexivity. }
  destruct (dev_sz =? 0); [| right; apply Hsized].
  rewrite run_bind. cbv zeta.
  rewrite (Only_not_exec_spawned K s (get_dev_sz_quiet blk dev_sz)).
  destruct (get_dev_sz_result K blk dev_sz s) as [Hfail | [v Hok]].
  - left. rewrite Hfail. cbn. split; reflexivity.
  - right. rewrite Hok. cbn [negb Z.eqb app result spawned]. apply Hsized.
Qed.

Lemma format_vfat_outcome (s : S) (blk : string) :
  exists rc,
    spawned (run K (format_vfat blk) s) = [(newfs_msdos_args blk, rc)]
    /\ result (run K (format_vfat blk) s) = rc.
Proof.
  unfold format_vfat. cbn.
  destruct (K (sys_access_X_OK "/system/bin/newfs_msdos") s) as [ok s1]. cbn.
  destruct (K (logwrap_fork_execvp (newfs_msdos_args blk)) s1) as [rc s2]. cbn.
  exists rc. split; reflexivity.
Qed.

(** The six ways the dispatch can go. *)
Lemma format_dispatch_outcomes (s : S) (entry : FstabEntry) (cf projid casefold : bool) :
  let o := run K (format_dispatch CRYPT_FOOTER_OFFSET entry cf projid casefold) s in
  let blk := blk_device entry in
  (spawned o = [] /\ result o = -1)
  \/ (spawned o = [] /\ result o = - EINVAL)
  \/ (exists size_str rc,
        spawned o = [(make_f2fs_args blk size_str projid casefold
                        (fs_compress (fs_mgr_flags entry)), rc)]
        /\ result o = rc)
  \/ (exists rc, spawned o = [(newfs_msdos_args blk, rc)] /\ result o = rc)
  \/ (exists size_str rc,
        rc <> 0 /\
        spawned o = [(mke2fs_args blk size_str projid (ext_meta_csum (fs_mgr_flags entry)), rc)]
        /\ result o = rc)
  \/ (exists size_str rc,
        spawned o = [(mke2fs_args blk size_str projid (ext_meta_csum (fs_mgr_flags entry)), 0);
                     (e2fsdroid_args (mount_point entry) blk, rc)]
        /\ result o = rc).
Proof.
  cbv zeta. unfold format_dispatch.
  destruct (String.eqb (fs_type entry) "f2fs").
  { destruct (format_f2fs_outcomes s (blk_device entry) (wrap64 (length entry)) cf projid
                casefold (fs_compress (fs_mgr_flags entry))) as [[Hrc Hnone] | Hone].
    - left. split; assumption.
    - right. right. left. exact Hone. }
  destruct (String.eqb (fs_type entry) "ext4").
  { destruct (format_ext4_outcomes CRYPT_FOOTER_OFFSET K s (blk_device entry)
                (mount_point entry) cf projid (ext_meta_csum (fs_mgr_flags entry)))
      as [[Hrc Hnone] | [Hone | Htwo]].
    - left. split; assumption.
    - do 4 right. left. exact Hone.
    - do 5 right. exact Htwo. }
  destruct (String.eqb (fs_type entry) "vfat").
  { do 3 right. left. apply format_vfat_outcome. }
  right. left. split; reflexivity.
Qed.

(** [fs_mgr_do_format] runs as its dispatch does, after the lookups. *)
Lemma fs_mgr_do_format_runs_dispatch (s : S) (entry : FstabEntry) (cf : bool) :
  exists projid casefold s',
    run K (fs_mgr_do_format CRYPT_FOOTER_OFFSET entry cf) s
    = run K (format_dispatch CRYPT_FOOTER_OFFSET entry cf projid casefold) s'.
Proof.
  rewrite fs_mgr_do_format_dispatch, run_bind. cbv zeta.
  destruct (String.eqb (mount_point entry) "/data").
  - cbn [bind call run].
    destruct (K (GetBoolProperty "external_storage.casefold.enabled" false) s) as [c s1].
    cbn [bind call run result final spawned].
    destruct (K (GetBoolProperty "external_storage.projid.enabled" false) s1) as [p s2].
    cbn [run result final spawned note_spawn app].
    exists p, c, s2. apply outcome_eta.
  - cbn [run result final spawned app]. exists false, false, s. apply outcome_eta.
Qed.

Lemma fs_mgr_do_resize_outcomes (s : S) (entry : FstabEntry) (cf : bool) :
  let o := run K (fs_mgr_do_resize CRYPT_FOOTER_OFFSET entry cf) s in
  (spawned o = [] /\ (result o = 0 \/ result o = -1 \/ result o = - EINVAL))
  \/ (exists size_str rc,
        spawned o = [(resize_f2fs_args size_str (blk_device entry), rc)]
        /\ result o = rc).
Proof.
  cbv zeta. unfold fs_mgr_do_resize.
  destruct (String.eqb (fs_type entry) "f2fs");
    [| left; split; [reflexivity | right; right; reflexivity]].
  assert (Hsized : forall d s',
             let o := run K (resize_f2fs_sized CRYPT_FOOTER_OFFSET (blk_device entry) d cf) s' in
             (spawned o = [] /\ (result o = 0 \/ result o = -1 \/ result o = - EINVAL))
             \/ (exists size_str rc,
                   spawned o = [(resize_f2fs_args size_str (blk_device entry), rc)]
                   /\ result o = rc)).
  { intros d s'. cbv zeta. rewrite resize_f2fs_sized_run. cbv zeta.
    destruct (_ || _).
    - left. split; [reflexivity | left; reflexivity].
    - right. eexists _, _. split; reflexivity. }
  unfold resize_f2fs. destruct (wrap64 (length entry) =? 0); [| apply Hsized].
  rewrite run_bind. cbv zeta.
  rewrite (Only_not_exec_spawned K s (get_dev_sz_quiet (blk_device entry) (wrap64 (length entry)))).
  destruct (get_dev_sz_result K (blk_device entry) (wrap64 (length entry)) s)
    as [Hfail | [v Hok]].
  - left. rewrite Hfail. cbn. split; [reflexivity | right; left; reflexivity].
  - rewrite Hok. cbn [negb Z.eqb app result spawned]. apply Hsized.
Qed.

(** X2: the result of [fs_mgr_do_format] is the exit status of the last
    process it ran, every process before that one having exited with 0;
    when it ran no process the result is -1 or -EINVAL.  So the result is
    0 exactly when at least one process was run and all exited with 0. *)
Theorem format_result_is_last_exit_status :
  forall (s : S) (entry : FstabEntry) (crypt_footer : bool),
    let o := run K (fs_mgr_do_format CRYPT_FOOTER_OFFSET entry crypt_footer) s in
    (spawned o = [] -> result o = -1 \/ result o = - EINVAL)
    /\ (forall earlier last,
           spawned o = earlier ++ [last] ->
           result o = snd last /\ Forall (fun sp => snd sp = 0) earlier)
    /\ (result o = 0 <->
        spawned o <> [] /\ Forall (fun sp => snd sp = 0) (spawned o)).
Proof.
  intros s entry cf o. subst o.
  destruct (fs_mgr_do_format_runs_dispatch s entry cf) as (p & c & s' & ->).
  destruct (format_dispatch_outcomes s' entry cf p c)
    as [[Hsp Hrc] | [[Hsp Hrc] | [(sz & rc & Hsp & Hrc) | [(rc & Hsp & Hrc)
       | [(sz & rc & Hnz & Hsp & Hrc) | (sz & rc & Hsp & Hrc)]]]]];
    rewrite Hsp, Hrc.
  - split; [intros _; left; reflexivity |]. split.
    + intros earlier last E. destruct earlier; discriminate E.
    + split; [discriminate | intros [Hne _]; contradiction Hne; reflexivity].
  - split; [intros _; right; reflexivity |]. split.
    + intros earlier last E. destruct earlier; discriminate E.
    + split; [discriminate | intros [Hne _]; contradiction Hne; reflexivity].
  - split; [discriminate |]. split.
    + intros earlier last E. apply (app_inj_tail []) in E. destruct E as [<- <-].
      split; [reflexivity | constructor].
    + split.
      * intros ->. split; [discriminate | repeat constructor].
      * intros [_ Hall]. inversion Hall; subst. assumption.
  - split; [discriminate |]. split.
    + intros earlier last E. apply (app_inj_tail []) in E. destruct E as [<- <-].
      split; [reflexivity | constructor].
    + split.
      * intros ->. split; [discriminate | repeat constructor].
      * intros [_ Hall]. inversion Hall; subst. assumption.
  - split; [discriminate |]. split.
    + intros earlier last E. apply (app_inj_tail []) in E. destruct E as [<- <-].
      split; [reflexivity | constructor].
    + split.
      * intros ->. split; [discriminate | repeat constructor].
      * intros [_ Hall]. inversion Hall; subst. assumption.
  - split; [discriminate |]. split.
    + intros earlier last E.
      apply (app_inj_tail [(mke2fs_args (blk_device entry) sz p
                              (ext_meta_csum (fs_mgr_flags entry)), 0)]) in E.
      destruct E as [<- <-]. split; [reflexivity | repeat constructor].
    + split.
      * intros ->. split; [discriminate | repeat constructor].
      * intros [_ Hall]. inversion Hall as [| x l _ Hrest]; subst.
        inversion Hrest; subst. assumption.
Qed.

Lemma mke2fs_args_device (blk size_str : string) (projid csum : bool) :
  In blk (mke2fs_args blk size_str projid csum).
Proof. destruct projid, csum; simpl; tauto. Qed.

Lemma make_f2fs_args_device (blk size_str : string) (projid casefold compress : bool) :
  In blk (make_f2fs_args blk size_str projid casefold compress).
Proof. destruct projid, casefold, compress; simpl; tauto. Qed.

(** X3: [fs_mgr_do_format] runs at most two processes and
    [fs_mgr_do_resize] at most one; the program of each is one of the four
    formatters (resize.f2fs for a resize), never a string of the entry, and
    the block device of the entry is among the arguments of each. *)
Theorem only_known_programs_are_run :
  forall (s : S) (entry : FstabEntry) (crypt_footer : bool),
    let formatted := spawned (run K (fs_mgr_do_format CRYPT_FOOTER_OFFSET entry crypt_footer) s) in
    let resized := spawned (run K (fs_mgr_do_resize CRYPT_FOOTER_OFFSET entry crypt_footer) s) in
    (List.length formatted <= 2)%nat
    /\ Forall (fun sp => In (program_of (fst sp)) format_programs
                         /\ In (blk_device entry) (fst sp)) formatted
    /\ (List.length resized <= 1)%nat
    /\ Forall (fun sp => program_of (fst sp) = "/system/bin/resize.f2fs"
                         /\ In (blk_device entry) (fst sp)) resized.
Proof.
  intros s entry cf formatted resized. subst formatted resized.
  assert (Hformat :
            let formatted := spawned (run K (fs_mgr_do_format CRYPT_FOOTER_OFFSET entry cf) s) in
            (List.length formatted <= 2)%nat
            /\ Forall (fun sp => In (program_of (fst sp)) format_programs
                                 /\ In (blk_device entry) (fst sp)) formatted).
  { cbv zeta.
    destruct (fs_mgr_do_format_runs_dispatch s entry cf) as (p & c & s' & ->).
    destruct (format_dispatch_outcomes s' entry cf p c)
      as [[Hsp _] | [[Hsp _] | [(sz & rc & Hsp & _) | [(rc & Hsp & _)
         | [(sz & rc & _ & Hsp & _) | (sz & rc & Hsp & _)]]]]];
      rewrite Hsp; cbn [List.length]; (split; [lia |]).
    - constructor.
    - constructor.
    - constructor; [cbn [fst]; split | constructor].
      + rewrite (proj1 (make_f2fs_args_shape _ _ _ _ _)). simpl. tauto.
      + apply make_f2fs_args_device.
    - constructor; [cbn [fst]; split; simpl; tauto | constructor].
    - constructor; [cbn [fst]; split | constructor].
      + rewrite (proj1 (mke2fs_args_shape _ _ _ _)). simpl. tauto.
      + apply mke2fs_args_device.
    - constructor; [cbn [fst]; split |].
      + rewrite (proj1 (mke2fs_args_shape _ _ _ _)). simpl. tauto.
      + apply mke2fs_args_device.
      + constructor; [cbn [fst]; split; simpl; tauto | constructor]. }
  destruct Hformat as [Hlen Hall].
  split; [exact Hlen |]. split; [exact Hall |].
  destruct (fs_mgr_do_resize_outcomes s entry cf) as [[Hsp _] | (sz & rc & Hsp & _)];
    rewrite Hsp; cbn [List.length]; (split; [lia |]).
  - constructor.
  - constructor; [cbn [fst]; split; simpl; tauto | constructor].
Qed.

(** *** vfat *)

(** X4: for a vfat entry [fs_mgr_do_format] runs newfs_msdos -O android
    on the device, once, whatever [access] answers, and returns its exit
    status; the crypto-footer flag, the declared length and the feature
    flags of the entry play no part: entries that agree on the device and
    on the mount point give the same program. *)
Theorem vfat_format_is_unconditional :
  forall (s : S) (entry : FstabEntry) (crypt_footer : bool),
    fs_type entry = "vfat" ->
    (exists rc,
        spawned (run K (fs_mgr_do_format CRYPT_FOOTER_OFFSET entry crypt_footer) s)
          = [(["/system/bin/newfs_msdos"; "-O"; "android"; blk_device entry], rc)]
        /\ result (run K (fs_mgr_do_format CRYPT_FOOTER_OFFSET entry crypt_footer) s) = rc)
    /\ (forall (entry' : FstabEntry) (crypt_footer' : bool),
           fs_type entry' = "vfat" ->
           blk_device entry' = blk_device entry ->
           mount_point entry' = mount_point entry ->
           fs_mgr_do_format CRYPT_FOOTER_OFFSET entry' crypt_footer'
           = fs_mgr_do_format CRYPT_FOOTER_OFFSET entry crypt_footer).
Proof.
  intros s entry cf Hvfat. split.
  - destruct (fs_mgr_do_format_runs_dispatch s entry cf) as (p & c & s' & ->).
    unfold format_dispatch. rewrite Hvfat. cbn [String.eqb Ascii.eqb Bool.eqb].
    apply format_vfat_outcome.
  - intros entry' cf' Hvfat' Hblk Hmnt.
    unfold fs_mgr_do_format. rewrite Hvfat, Hvfat', Hblk, Hmnt. reflexivity.
Qed.

(** *** The settings of "/data" *)

(** X5: for an entry mounted on "/data", [fs_mgr_do_format] first looks
    up external_storage.casefold.enabled, then
    external_storage.projid.enabled, both with the default false,
    whatever the filesystem type; an f2fs entry is then formatted with both
    answers, an ext4 entry with the second only (the first is not
    used). *)
Theorem data_format_follows_properties :
  forall (s s1 s2 : S) (entry : FstabEntry) (crypt_footer casefold projid : bool),
    mount_point entry = "/data" ->
    K (GetBoolProperty "external_storage.casefold.enabled" false) s = (casefold, s1) ->
    K (GetBoolProperty "external_storage.projid.enabled" false) s1 = (projid, s2) ->
    (exists rest,
        calls K (fs_mgr_do_format CRYPT_FOOTER_OFFSET entry crypt_footer) s
        = Called (GetBoolProperty "external_storage.casefold.enabled" false) casefold
          :: Called (GetBoolProperty "external_storage.projid.enabled" false) projid
          :: rest)
    /\ (fs_type entry = "f2fs" ->
        run K (fs_mgr_do_format CRYPT_FOOTER_OFFSET entry crypt_footer) s
        = run K (format_f2fs CRYPT_FOOTER_OFFSET (blk_device entry) (wrap64 (length entry))
                   crypt_footer projid casefold (fs_compress (fs_mgr_flags entry))) s2)
    /\ (fs_type entry = "ext4" ->
        run K (fs_mgr_do_format CRYPT_FOOTER_OFFSET entry crypt_footer) s
        = run K (format_ext4 CRYPT_FOOTER_OFFSET (blk_device entry) (mount_point entry)
                   crypt_footer projid (ext_meta_csum (fs_mgr_flags entry))) s2).
Proof.
  intros s s1 s2 entry cf casefold projid Hmnt Hc Hp.
  assert (Hrun : run K (fs_mgr_do_format CRYPT_FOOTER_OFFSET entry cf) s
                 = run K (format_dispatch CRYPT_FOOTER_OFFSET entry cf projid casefold) s2).
  { rewrite fs_mgr_do_format_dispatch, run_bind. cbv zeta.
    rewrite Hmnt. cbn [String.eqb Ascii.eqb Bool.eqb bind call run].
    rewrite Hc. cbn [bind call run result final spawned]. rewrite Hp.
    cbn [run result final spawned note_spawn app]. apply outcome_eta. }
  split; [| split].
  - rewrite fs_mgr_do_format_dispatch, calls_bind.
    rewrite Hmnt. cbn [String.eqb Ascii.eqb Bool.eqb bind call calls].
    rewrite Hc. cbn [bind call calls]. rewrite Hp. cbn [calls app].
    eexists. reflexivity.
  - intros Hf2fs. rewrite Hrun. unfold format_dispatch. rewrite Hf2fs. reflexivity.
  - intros Hext4. rewrite Hrun. unfold format_dispatch. rewrite Hext4. reflexivity.
Qed.

(** *** The size of the filesystem *)

(** X6: the size [get_f2fs_size] returns is a [uint64_t] and a multiple of
    4096, whatever the device holds. *)
Theorem f2fs_size_is_whole_blocks :
  forall (s : S) (blk_device : string),
    0 <= result (run K (get_f2fs_size blk_device) s) < 2 ^ 64
    /\ result (run K (get_f2fs_size blk_device) s) mod 4096 = 0.
Proof.
  intros s blk. unfold get_f2fs_size. rewrite run_bind. cbv zeta.
  destruct (result (run K (read_f2fs_sb blk) s)) as [sb |]; cbn [run result].
  - split; [apply wrap64_range |].
    unfold wrap64, F2FS_BLKSIZE.
    rewrite Z.mod_mod_divide by (exists (2 ^ 52); reflexivity).
    apply Z_mod_mult.
  - split; [split; [apply Z.le_refl | reflexivity] | reflexivity].
Qed.

(** X7: when the current size plus 4096 * 1024 does not wrap, resize.f2fs
    is only ever asked to grow the filesystem: the sectors it is given
    cover more than the current size (by more than 4096 * 1024 - 512
    bytes) and no more than the size resized to. *)
Theorem resize_f2fs_only_grows :
  forall (s s1 : S) (fs_blkdev : string) (declared D : Z) (crypt_footer : bool)
         (argv : list string) (rc : Z),
    dev_sz_resolved K fs_blkdev declared s D s1 ->
    let target := drop_crypt_footer CRYPT_FOOTER_OFFSET crypt_footer D in
    let f2fs_sz := result (run K (get_f2fs_size fs_blkdev) s1) in
    f2fs_sz + 4096 * 1024 < 2 ^ 64 ->
    spawned (run K (resize_f2fs CRYPT_FOOTER_OFFSET fs_blkdev declared crypt_footer) s)
      = [(argv, rc)] ->
    exists sectors,
      argv = ["/system/bin/resize.f2fs"; "-t"; to_string sectors; fs_blkdev]
      /\ 0 < f2fs_sz
      /\ f2fs_sz + 4096 * 1024 - 512 < sectors * 512 <= target.
Proof.
  intros s s1 blk declared D cf argv rc Hres target f2fs_sz Hsum Hrun.
  pose proof (@get_f2fs_size_range S K s1 blk) as Hrange.
  fold f2fs_sz in Hrange.
  destruct (@resize_f2fs_cases CRYPT_FOOTER_OFFSET S K s s1 blk declared D cf Hres)
    as [Hskip Hgo].
  fold target f2fs_sz in Hskip, Hgo.
  assert (Hw : wrap64 (f2fs_sz + 4096 * 1024) = f2fs_sz + 4096 * 1024)
    by (apply wrap64_small; lia).
  rewrite Hw in Hskip, Hgo.
  destruct (Z.eq_dec f2fs_sz 0) as [Hz | Hnz].
  { destruct (Hskip (or_introl Hz)) as [_ Hnone]. rewrite Hnone in Hrun. discriminate. }
  destruct (Z_le_gt_dec target (f2fs_sz + 4096 * 1024)) as [Hle | Hgt].
  { destruct (Hskip (or_intror Hle)) as [_ Hnone]. rewrite Hnone in Hrun. discriminate. }
  destruct (Hgo (conj Hnz (Z.gt_lt _ _ Hgt))) as (rc' & Hone & _).
  rewrite Hone in Hrun. injection Hrun as <- _.
  exists (target / 512). split; [reflexivity |]. split; [lia |].
  pose proof (Z.mul_div_le target 512 eq_refl).
  pose proof (Z.mul_succ_div_gt target 512 eq_refl).
  lia.
Qed.

(** X8: when the size [D] is read from the device and the footer
    (CRYPT_FOOTER_OFFSET if the crypto footer is requested, 0 otherwise)
    fits in it, the blocks given to mke2fs, and to make_f2fs when the
    declared length of the entry is 0, end before the footer of the
    device, and with less than one block to spare: blocks * 4096 + footer
    <= D < (blocks + 1) * 4096 + footer. *)
Theorem filesystem_ends_before_footer :
  forall (s : S) (fs_blkdev fs_mnt_point : string) (D : Z)
         (crypt_footer needs_projid needs_metadata_csum needs_casefold fs_compress : bool),
    let footer := if crypt_footer then CRYPT_FOOTER_OFFSET else 0 in
    0 <= footer <= D ->
    D < 2 ^ 64 ->
    result (run K (get_dev_sz fs_blkdev 0) s) = (0, D) ->
    (exists argv rc rest blocks,
       spawned (run K (format_ext4 CRYPT_FOOTER_OFFSET fs_blkdev fs_mnt_point
                         crypt_footer needs_projid needs_metadata_csum) s)
         = (argv, rc) :: rest /\
       last_arg argv = to_string blocks /\
       blocks * 4096 + footer <= D < (blocks + 1) * 4096 + footer)
    /\
    (exists argv rc blocks,
       spawned (run K (format_f2fs CRYPT_FOOTER_OFFSET fs_blkdev 0
                         crypt_footer needs_projid needs_casefold fs_compress) s)
         = [(argv, rc)] /\
       last_arg argv = to_string blocks /\
       blocks * 4096 + footer <= D < (blocks + 1) * 4096 + footer).
Proof.
  intros s blk mnt D cf projid csum casefold compress footer Hfit HD Hsz.
  assert (Husable : drop_crypt_footer CRYPT_FOOTER_OFFSET cf D = D - footer).
  { rewrite (@drop_crypt_footer_wrap CRYPT_FOOTER_OFFSET cf D) by lia.
    fold footer. apply wrap64_small. lia. }
  assert (Hblocks : (D - footer) / 4096 * 4096 + footer <= D
                    < ((D - footer) / 4096 + 1) * 4096 + footer).
  { pose proof (Z.mul_div_le (D - footer) 4096 eq_refl).
    pose proof (Z.mul_succ_div_gt (D - footer) 4096 eq_refl).
    lia. }
  split.
  - destruct (@format_ext4_sized_run CRYPT_FOOTER_OFFSET S K s blk mnt D cf projid csum Hsz)
      as (rc & rest & Hrun).
    eexists _, rc, rest, ((D - footer) / 4096).
    split; [exact Hrun |]. split; [| exact Hblocks].
    rewrite (proj2 (mke2fs_args_shape _ _ _ _)), Husable. reflexivity.
  - assert (Hres : dev_sz_resolved K blk 0 s D (final (run K (get_dev_sz blk 0) s)))
      by (right; split; [reflexivity | split; [exact Hsz | reflexivity]]).
    rewrite (@format_f2fs_resolved CRYPT_FOOTER_OFFSET S K s _ blk 0 D cf projid
               casefold compress Hres).
    destruct (@format_f2fs_sized_run CRYPT_FOOTER_OFFSET S K
                (final (run K (get_dev_sz blk 0) s)) blk D cf projid casefold
                compress) as (rc & Hrun & _).
    eexists _, rc, ((D - footer) / 4096).
    split; [exact Hrun |]. split; [| exact Hblocks].
    rewrite (proj2 (make_f2fs_args_shape _ _ _ _ _)), Husable. reflexivity.
Qed.

(** *** Calls that are never made *)

Lemma get_dev_sz_only (ok : Syscall -> Prop) (blk : string) (d : Z) :
  (forall path, ok (sys_open path)) ->
  (forall fd, ok (sys_close fd)) ->
  (forall fd, ok (sys_ioctl_BLKGETSIZE64 fd)) ->
  Only ok (get_dev_sz blk d).
Proof.
  intros Hopen Hclose Hioctl.
  assert (Hrelease : forall fd (a : Z * Z), Only ok (unique_fd_release fd ;; Ret a)).
  { intros fd a. unfold unique_fd_release. destruct (fd =? -1).
    - constructor.
    - apply Only_bind; [exact (@Only_call ok (sys_close fd) (Hclose fd)) | intros; constructor]. }
  unfold get_dev_sz.
  apply Only_bind; [exact (@Only_call ok (sys_open blk) (Hopen blk)) | intros fd].
  destruct (fd <? 0); [apply Hrelease |].
  apply Only_bind; [exact (@Only_call ok (sys_ioctl_BLKGETSIZE64 fd) (Hioctl fd)) |].
  intros [v |]; apply Hrelease.
Qed.

Lemma exec_only_call (ok : Syscall -> Prop) (argv : list string) :
  (forall a, ok (logwrap_fork_execvp a)) ->
  Only ok (call (logwrap_fork_execvp argv)).
Proof. intros Hexec. exact (@Only_call ok (logwrap_fork_execvp argv) (Hexec argv)). Qed.

Lemma format_dispatch_only (ok : Syscall -> Prop) (entry : FstabEntry)
    (cf projid casefold : bool) :
  (forall path, ok (sys_open path)) ->
  (forall fd, ok (sys_close fd)) ->
  (forall fd, ok (sys_ioctl_BLKGETSIZE64 fd)) ->
  (forall path, ok (sys_access_X_OK path)) ->
  (forall a, ok (logwrap_fork_execvp a)) ->
  Only ok (format_dispatch CRYPT_FOOTER_OFFSET entry cf projid casefold).
Proof.
  intros Hopen Hclose Hioctl Haccess Hexec. unfold format_dispatch.
  destruct (String.eqb (fs_type entry) "f2fs").
  { unfold format_f2fs, format_f2fs_sized.
    destruct (wrap64 (length entry) =? 0); [| apply exec_only_call; exact Hexec].
    apply Only_bind; [apply get_dev_sz_only; assumption | intros [rc d]].
    destruct (negb (rc =? 0)); [constructor | apply exec_only_call; exact Hexec]. }
  destruct (String.eqb (fs_type entry) "ext4").
  { unfold format_ext4.
    apply Only_bind; [apply get_dev_sz_only; assumption | intros [rc d]].
    destruct (negb (rc =? 0)); [constructor |].
    apply Only_bind; [apply exec_only_call; exact Hexec | intros rc1].
    destruct (negb (rc1 =? 0)); [constructor |].
    apply Only_bind; [apply exec_only_call; exact Hexec | intros; constructor]. }
  destruct (String.eqb (fs_type entry) "vfat").
  { unfold format_vfat.
    apply Only_bind;
      [exact (@Only_call ok (sys_access_X_OK "/system/bin/newfs_msdos") (Haccess _))
      | intros; apply exec_only_call; exact Hexec]. }
  constructor.
Qed.

Lemma read_f2fs_sb_only (ok : Syscall -> Prop) (blk : string) :
  (forall path, ok (sys_open path)) ->
  (forall fd, ok (sys_close fd)) ->
  (forall fd count offset, ok (sys_pread fd count offset)) ->
  Only ok (read_f2fs_sb blk).
Proof.
  intros Hopen Hclose Hpread.
  assert (Hrelease : forall fd (a : option f2fs_super_block),
             Only ok (unique_fd_release fd ;; Ret a)).
  { intros fd a. unfold unique_fd_release. destruct (fd =? -1).
    - constructor.
    - apply Only_bind; [exact (@Only_call ok (sys_close fd) (Hclose fd)) | intros; constructor]. }
  unfold read_f2fs_sb.
  apply Only_bind; [exact (@Only_call ok (sys_open blk) (Hopen blk)) | intros fd].
  apply Only_bind;
    [exact (@Only_call ok (sys_pread fd sizeof_f2fs_super_block F2FS_SUPER_OFFSET)
              (Hpread _ _ _)) | intros r].
  destruct (complete_read r) as [buf |]; [| apply Hrelease].
  destruct (magic _ =? _); [apply Hrelease |].
  apply Only_bind;
    [exact (@Only_call ok (sys_pread fd sizeof_f2fs_super_block
                             (F2FS_BLKSIZE + F2FS_SUPER_OFFSET)) (Hpread _ _ _))
    | intros r'].
  destruct (complete_read r'); apply Hrelease.
Qed.

(** X9: [fs_mgr_do_format] never reads the device: formatting goes the
    same way on two kernels that differ only in what [pread] answers.
    [fs_mgr_do_resize] never looks up a property and never calls
    [access]. *)
Theorem format_never_reads_the_device :
  forall (entry : FstabEntry) (crypt_footer : bool),
    Only not_pread (fs_mgr_do_format CRYPT_FOOTER_OFFSET entry crypt_footer)
    /\ (forall (K1 K2 : Kernel S),
           (forall c s, not_pread c -> K1 c s = K2 c s) ->
           forall s,
             run K1 (fs_mgr_do_format CRYPT_FOOTER_OFFSET entry crypt_footer) s
             = run K2 (fs_mgr_do_format CRYPT_FOOTER_OFFSET entry crypt_footer) s)
    /\ Only resize_call (fs_mgr_do_resize CRYPT_FOOTER_OFFSET entry crypt_footer).
Proof.
  intros entry cf.
  assert (Hformat : Only not_pread (fs_mgr_do_format CRYPT_FOOTER_OFFSET entry cf)).
  { rewrite fs_mgr_do_format_dispatch. apply Only_bind.
    - destruct (String.eqb (mount_point entry) "/data"); [| constructor].
      apply Only_bind; [only_call | intros c].
      apply Only_bind; [only_call | intros p]. constructor.
    - intros [c p]. apply format_dispatch_only; intros; exact I. }
  split; [exact Hformat |]. split.
  - intros K1 K2 Hagree s. apply Only_run_ext with (ok := not_pread); assumption.
  - unfold fs_mgr_do_resize. destruct (String.eqb (fs_type entry) "f2fs"); [| constructor].
    assert (Hsized : forall d, Only resize_call
               (resize_f2fs_sized CRYPT_FOOTER_OFFSET (blk_device entry) d cf)).
    { intros d. unfold resize_f2fs_sized, get_f2fs_size.
      apply Only_bind.
      - apply Only_bind; [apply read_f2fs_sb_only; intros; exact I |].
        intros [sb |]; constructor.
      - intros sz. destruct (_ || _); [constructor |].
        apply exec_only_call. intros; exact I. }
    unfold resize_f2fs. destruct (wrap64 (length entry) =? 0); [| apply Hsized].
    apply Only_bind; [apply get_dev_sz_only; intros; exact I | intros [rc d]].
    destruct (negb (rc =? 0)); [constructor | apply Hsized].
Qed.

(** X10: the declared length spares the size query.  An f2fs entry with a
    declared length other than 0, like a vfat entry, is formatted without
    any [open], [ioctl], [pread] or [close], and one formatter is always
    run; an ext4 entry, or an f2fs entry of length 0, whose size cannot be
    read, is not formatted: the result is -1 and no process is run. *)
Theorem declared_length_spares_the_size_query :
  forall (s : S) (entry : FstabEntry) (crypt_footer : bool),
    (fs_type entry = "vfat" \/ (fs_type entry = "f2fs" /\ wrap64 (length entry) <> 0) ->
     Only not_device_call (fs_mgr_do_format CRYPT_FOOTER_OFFSET entry crypt_footer)
     /\ exists argv rc,
          spawned (run K (fs_mgr_do_format CRYPT_FOOTER_OFFSET entry crypt_footer) s)
            = [(argv, rc)]
          /\ result (run K (fs_mgr_do_format CRYPT_FOOTER_OFFSET entry crypt_footer) s) = rc)
    /\
    (fs_type entry = "ext4" \/ (fs_type entry = "f2fs" /\ wrap64 (length entry) = 0) ->
     (forall s', fst (result (run K (get_dev_sz (blk_device entry) 0) s')) <> 0) ->
     result (run K (fs_mgr_do_format CRYPT_FOOTER_OFFSET entry crypt_footer) s) = -1
     /\ spawned (run K (fs_mgr_do_format CRYPT_FOOTER_OFFSET entry crypt_footer) s) = []).
Proof.
  intros s entry cf. split.
  - intros Htype.
    assert (Hshape : forall p c,
               exists argv,
                 format_dispatch CRYPT_FOOTER_OFFSET entry cf p c
                 = call (logwrap_fork_execvp argv)
                 \/ format_dispatch CRYPT_FOOTER_OFFSET entry cf p c
                    = (call (sys_access_X_OK "/system/bin/newfs_msdos") ;;
                       call (logwrap_fork_execvp argv))).
    { intros p c. unfold format_dispatch.
      destruct Htype as [Hvfat | [Hf2fs Hlen]].
      - rewrite Hvfat. cbn [String.eqb Ascii.eqb Bool.eqb].
        eexists. right. reflexivity.
      - rewrite Hf2fs. cbn [String.eqb Ascii.eqb Bool.eqb].
        unfold format_f2fs, format_f2fs_sized.
        apply Z.eqb_neq in Hlen. rewrite Hlen. eexists. left. reflexivity. }
    split.
    + rewrite fs_mgr_do_format_dispatch. apply Only_bind.
      * destruct (String.eqb (mount_point entry) "/data"); [| constructor].
        apply Only_bind; [only_call | intros c].
        apply Only_bind; [only_call | intros p]. constructor.
      * intros [c p]. destruct (Hshape p c) as [argv [-> | ->]].
        -- only_call.
        -- apply Only_bind; [only_call | intros; only_call].
    + destruct (fs_mgr_do_format_runs_dispatch s entry cf) as (p & c & s' & ->).
      destruct (Hshape p c) as [argv [-> | ->]]; cbn.
      * destruct (K (logwrap_fork_execvp argv) s') as [rc s1]. cbn.
        eexists _, rc. split; reflexivity.
      * destruct (K (sys_access_X_OK "/system/bin/newfs_msdos") s') as [ok s1]. cbn.
        destruct (K (logwrap_fork_execvp argv) s1) as [rc s2]. cbn.
        eexists _, rc. split; reflexivity.
  - intros Htype Hunsized.
    destruct (fs_mgr_do_format_runs_dispatch s entry cf) as (p & c & s' & ->).
    unfold format_dispatch.
    assert (Hfail : forall d, result (run K (get_dev_sz (blk_device entry) d) s') = (-1, d)).
    { intros d. destruct (get_dev_sz_result K (blk_device entry) d s') as [H | [v H]];
        [exact H |].
      exfalso. apply (Hunsized s').
      rewrite <- (proj1 (get_dev_sz_first_content K (blk_device entry) d 0 s')), H.
      reflexivity. }
    destruct Htype as [Hext4 | [Hf2fs Hlen]].
    + rewrite Hext4. cbn [String.eqb Ascii.eqb Bool.eqb].
      unfold format_ext4. rewrite run_bind. cbv zeta.
      rewrite (Only_not_exec_spawned K s' (get_dev_sz_quiet (blk_device entry) 0)).
      rewrite Hfail. cbn. split; reflexivity.
    + rewrite Hf2fs. cbn [String.eqb Ascii.eqb Bool.eqb].
      unfold format_f2fs. rewrite Hlen. cbn [Z.eqb].
      rewrite run_bind. cbv zeta.
      rewrite (Only_not_exec_spawned K s' (get_dev_sz_quiet (blk_device entry) 0)).
      rewrite Hfail. cbn. split; reflexivity.
Qed.

(** *** The reads of the superblock *)

Lemma release_reads_nothing (A : Type) (fd : Z) (a : A) (s : S) :
  offsets_read (calls K (unique_fd_release fd ;; Ret a) s) = [].
Proof.
  unfold unique_fd_release. destruct (fd =? -1); cbn; [reflexivity |].
  destruct (K (sys_close fd) s). reflexivity.
Qed.

(** X11: [read_f2fs_sb] reads at offset 1024 first, and at offset
    4096 + 1024 only after a complete read with a wrong magic: after a
    short or failed first read the second copy is not read at all.
    [get_f2fs_size] makes the same reads. *)
Theorem second_superblock_is_read_on_wrong_magic_only :
  forall (s s1 s2 : S) (blk_device : string) (fd : Z) (first : option (list byte)),
    K (sys_open blk_device) s = (fd, s1) ->
    K (sys_pread fd 44 1024) s1 = (first, s2) ->
    offsets_read (calls K (read_f2fs_sb blk_device) s)
      = match complete_read first with
        | Some record => if has_f2fs_magic record then [1024] else [1024; 4096 + 1024]
        | None => [1024]
        end
    /\ offsets_read (calls K (get_f2fs_size blk_device) s)
       = offsets_read (calls K (read_f2fs_sb blk_device) s).
Proof.
  intros s s1 s2 blk fd first Hopen Hfirst. split.
  - unfold read_f2fs_sb. cbn [bind call calls].
    rewrite Hopen. cbn [bind call calls offsets_read].
    change (K (sys_pread fd sizeof_f2fs_super_block F2FS_SUPER_OFFSET) s1)
      with (K (sys_pread fd 44 1024) s1).
    rewrite Hfirst. cbn [offsets_read].
    destruct (complete_read first) as [buf |] eqn:Hc.
    + rewrite (@magic_test_on_bytes buf (@complete_read_length first buf Hc)).
      destruct (has_f2fs_magic buf).
      * rewrite release_reads_nothing. reflexivity.
      * cbn [bind call calls].
        destruct (K (sys_pread fd sizeof_f2fs_super_block
                       (F2FS_BLKSIZE + F2FS_SUPER_OFFSET)) s2) as [second s3].
        cbn [offsets_read].
        destruct (complete_read second); rewrite release_reads_nothing; reflexivity.
    + rewrite release_reads_nothing. reflexivity.
  - unfold get_f2fs_size. rewrite calls_bind.
    destruct (result (run K (read_f2fs_sb blk) s)); cbn [calls];
      rewrite app_nil_r; reflexivity.
Qed.

End Further.

(** ** The further properties on the bench *)

(** The account of descriptors refuses a descriptor left open, a close of
    a descriptor that is not held, and an execution while one is held. *)
Example descriptors_refuse_misuse :
  descriptors [Called (sys_open "/dev/x") 3] [] = Some [3]
  /\ descriptors [Called (sys_close 3) tt] [] = None
  /\ descriptors [Called (sys_open "/dev/x") 3;
                  Called (logwrap_fork_execvp ["/system/bin/mke2fs"]) 0;
                  Called (sys_close 3) tt] [] = None
  /\ descriptors [Called (sys_open "/dev/x") 3; Called (sys_close 3) tt;
                  Called (sys_pread 3 44 1024) None] [] = None.
Proof. repeat split. Qed.

(** An ext4 format on the bench: two processes, the last one gives the
    result. *)
Lemma format_result_witness :
  let K := Bench.kernel Bench.blank in
  let entry := Bench.entry "/data" "ext4" 0 in
  let mke2fs := (["/system/bin/mke2fs"; "-t"; "ext4"; "-b"; "4096"; "/dev/x"; "262144"], 0) in
  let e2fsdroid := (["/system/bin/e2fsdroid"; "-e"; "-a"; "/data"; "/dev/x"], 0) in
  spawned (run K (fs_mgr_do_format Bench.footer entry false) tt) = [mke2fs] ++ [e2fsdroid]
  /\ result (run K (fs_mgr_do_format Bench.footer entry false) tt) = snd e2fsdroid
  /\ Forall (fun sp => snd sp = 0) [mke2fs]
  /\ result (run K (fs_mgr_do_format Bench.footer entry false) tt) = 0.
Proof.
  intros K entry mke2fs e2fsdroid.
  assert (Hrun : spawned (run K (fs_mgr_do_format Bench.footer entry false) tt)
                 = [mke2fs] ++ [e2fsdroid]) by (vm_compute; reflexivity).
  destruct (@format_result_is_last_exit_status Bench.footer unit K tt entry false)
    as (_ & Hlast & Hzero).
  destruct (Hlast _ _ Hrun) as [Hrc Hall].
  assert (Hne : spawned (run K (fs_mgr_do_format Bench.footer entry false) tt) <> []
                /\ Forall (fun sp => snd sp = 0)
                     (spawned (run K (fs_mgr_do_format Bench.footer entry false) tt))).
  { rewrite Hrun. split; [discriminate | repeat constructor]. }
  exact (conj Hrun (conj Hrc (conj Hall (proj2 Hzero Hne)))).
Defined.

(** A vfat format on the bench, with and without the crypto footer. *)
Lemma vfat_format_witness :
  let K := Bench.kernel Bench.blank in
  let entry := Bench.entry "/mnt/sdcard" "vfat" 0 in
  let entry' := Bench.entry "/mnt/sdcard" "vfat" 65536 in
  fs_type entry = "vfat"
  /\ fs_type entry' = "vfat"
  /\ (exists rc,
         spawned (run K (fs_mgr_do_format Bench.footer entry true) tt)
           = [(["/system/bin/newfs_msdos"; "-O"; "android"; blk_device entry], rc)]
         /\ result (run K (fs_mgr_do_format Bench.footer entry true) tt) = rc)
  /\ fs_mgr_do_format Bench.footer entry' false = fs_mgr_do_format Bench.footer entry true.
Proof.
  intros K entry entry'.
  assert (Hvfat : fs_type entry = "vfat") by reflexivity.
  assert (Hvfat' : fs_type entry' = "vfat") by reflexivity.
  destruct (@vfat_format_is_unconditional Bench.footer unit K tt entry true Hvfat)
    as [Hrun Hsame].
  exact (conj Hvfat (conj Hvfat' (conj Hrun (Hsame entry' false Hvfat' eq_refl eq_refl)))).
Defined.

(** An f2fs format of "/data" on the bench when both settings read true. *)
Lemma data_format_witness :
  let K := with_properties (Bench.kernel Bench.blank) (Bench.answering true) in
  let entry := Bench.entry "/data" "f2fs" 0 in
  mount_point entry = "/data"
  /\ K (GetBoolProperty "external_storage.casefold.enabled" false) tt = (true, tt)
  /\ K (GetBoolProperty "external_storage.projid.enabled" false) tt = (true, tt)
  /\ fs_type entry = "f2fs"
  /\ run K (fs_mgr_do_format Bench.footer entry false) tt
     = run K (format_f2fs Bench.footer (blk_device entry) (wrap64 (length entry))
                false true true (fs_compress (fs_mgr_flags entry))) tt
  /\ spawned (run K (fs_mgr_do_format Bench.footer entry false) tt)
     = [(["/system/bin/make_f2fs"; "-g"; "android"; "-O"; "project_quota,extra_attr";
          "-O"; "casefold"; "-C"; "utf8"; "/dev/x"; "262144"], 0)].
Proof.
  intros K entry.
  assert (Hmnt : mount_point entry = "/data") by reflexivity.
  assert (Hc : K (GetBoolProperty "external_storage.casefold.enabled" false) tt = (true, tt))
    by reflexivity.
  assert (Hp : K (GetBoolProperty "external_storage.projid.enabled" false) tt = (true, tt))
    by reflexivity.
  assert (Hf2fs : fs_type entry = "f2fs") by reflexivity.
  destruct (@data_format_follows_properties Bench.footer unit K tt tt tt entry false
              true true Hmnt Hc Hp) as (_ & Hrun & _).
  refine (conj Hmnt (conj Hc (conj Hp (conj Hf2fs (conj (Hrun Hf2fs) _))))).
  vm_compute. reflexivity.
Defined.

(** A resize on the bench: an f2fs of 1000 blocks on a device of 1 GiB. *)
Lemma resize_only_grows_witness :
  let K := Bench.kernel (Bench.with_f2fs 1000) in
  let argv := ["/system/bin/resize.f2fs"; "-t"; "2097152"; "/dev/x"] in
  dev_sz_resolved K "/dev/x" 0 tt 1073741824 tt
  /\ result (run K (get_f2fs_size "/dev/x") tt) + 4096 * 1024 < 2 ^ 64
  /\ spawned (run K (resize_f2fs Bench.footer "/dev/x" 0 false) tt) = [(argv, 0)]
  /\ exists sectors,
       argv = ["/system/bin/resize.f2fs"; "-t"; to_string sectors; "/dev/x"]
       /\ 0 < result (run K (get_f2fs_size "/dev/x") tt)
       /\ result (run K (get_f2fs_size "/dev/x") tt) + 4096 * 1024 - 512
          < sectors * 512 <= drop_crypt_footer Bench.footer false 1073741824.
Proof.
  intros K argv.
  assert (Hres : dev_sz_resolved K "/dev/x" 0 tt 1073741824 tt)
    by (right; repeat split; vm_compute; reflexivity).
  assert (Hsum : result (run K (get_f2fs_size "/dev/x") tt) + 4096 * 1024 < 2 ^ 64)
    by (vm_compute; reflexivity).
  assert (Hrun : spawned (run K (resize_f2fs Bench.footer "/dev/x" 0 false) tt) = [(argv, 0)])
    by (vm_compute; reflexivity).
  exact (conj Hres (conj Hsum (conj Hrun
           (@resize_f2fs_only_grows Bench.footer unit K tt tt "/dev/x" 0 1073741824 false
              argv 0 Hres Hsum Hrun)))).
Defined.

(** The blocks before the footer on the bench: a device of 1 GiB + 100
    bytes with the crypto footer. *)
Lemma ends_before_footer_witness :
  let K := Bench.kernel (Bench.reporting 1073741924) in
  0 <= Bench.footer <= 1073741924
  /\ 1073741924 < 2 ^ 64
  /\ result (run K (get_dev_sz "/dev/x" 0) tt) = (0, 1073741924)
  /\ (exists argv rc rest blocks,
         spawned (run K (format_ext4 Bench.footer "/dev/x" "/data" true false false) tt)
           = (argv, rc) :: rest /\
         last_arg argv = to_string blocks /\
         blocks * 4096 + Bench.footer <= 1073741924 < (blocks + 1) * 4096 + Bench.footer)
  /\ (exists argv rc blocks,
         spawned (run K (format_f2fs Bench.footer "/dev/x" 0 true false false false) tt)
           = [(argv, rc)] /\
         last_arg argv = to_string blocks /\
         blocks * 4096 + Bench.footer <= 1073741924 < (blocks + 1) * 4096 + Bench.footer).
Proof.
  intros K.
  assert (Hfit : 0 <= Bench.footer <= 1073741924) by (split; discriminate).
  assert (HD : 1073741924 < 2 ^ 64) by reflexivity.
  assert (Hsz : result (run K (get_dev_sz "/dev/x" 0) tt) = (0, 1073741924))
    by (vm_compute; reflexivity).
  exact (conj Hfit (conj HD (conj Hsz
           (@filesystem_ends_before_footer Bench.footer unit K tt "/dev/x" "/data"
              1073741924 true false false false false Hfit HD Hsz)))).
Defined.

(** Formatting on the bench does not depend on what the device holds: a
    blank device and one that holds an f2fs are formatted alike. *)
Lemma format_never_reads_witness :
  let K1 := Bench.kernel Bench.blank in
  let K2 := Bench.kernel (Bench.with_f2fs 1000) in
  let entry := Bench.entry "/data" "f2fs" 0 in
  (forall c s, not_pread c -> K1 c s = K2 c s)
  /\ run K1 (fs_mgr_do_format Bench.footer entry false) tt
     = run K2 (fs_mgr_do_format Bench.footer entry false) tt.
Proof.
  intros K1 K2 entry.
  assert (Hagree : forall c s, not_pread c -> K1 c s = K2 c s).
  { intros c s Hc. destruct c; try reflexivity. contradiction Hc. }
  destruct (@format_never_reads_the_device Bench.footer unit entry false)
    as (_ & Hsame & _).
  exact (conj Hagree (Hsame K1 K2 Hagree tt)).
Defined.

(** The declared length on the bench: a device whose size cannot be read
    is formatted as f2fs with a declared length, and not without. *)
Lemma declared_length_witness :
  let K := Bench.kernel Bench.unsized in
  let declared := Bench.entry "/data" "f2fs" 409600 in
  let undeclared := Bench.entry "/data" "f2fs" 0 in
  (fs_type declared = "f2fs" /\ wrap64 (length declared) <> 0)
  /\ (fs_type undeclared = "f2fs" /\ wrap64 (length undeclared) = 0)
  /\ (forall s', fst (result (run K (get_dev_sz (blk_device undeclared) 0) s')) <> 0)
  /\ (exists argv rc,
         spawned (run K (fs_mgr_do_format Bench.footer declared false) tt) = [(argv, rc)]
         /\ result (run K (fs_mgr_do_format Bench.footer declared false) tt) = rc)
  /\ result (run K (fs_mgr_do_format Bench.footer undeclared false) tt) = -1
  /\ spawned (run K (fs_mgr_do_format Bench.footer undeclared false) tt) = [].
Proof.
  intros K declared undeclared.
  assert (Hdecl : fs_type declared = "f2fs" /\ wrap64 (length declared) <> 0)
    by (split; [reflexivity | vm_compute; discriminate]).
  assert (Hundecl : fs_type undeclared = "f2fs" /\ wrap64 (length undeclared) = 0)
    by (split; reflexivity).
  assert (Hunsized : forall s',
             fst (result (run K (get_dev_sz (blk_device undeclared) 0) s')) <> 0)
    by (intros []; vm_compute; discriminate).
  destruct (@declared_length_spares_the_size_query Bench.footer unit K tt declared false)
    as [Hspared _].
  destruct (@declared_length_spares_the_size_query Bench.footer unit K tt undeclared false)
    as [_ Hfails].
  destruct (Hspared (or_intror Hdecl)) as [_ Hrun].
  destruct (Hfails (or_intror Hundecl) Hunsized) as [Hrc Hnone].
  exact (conj Hdecl (conj Hundecl (conj Hunsized (conj Hrun (conj Hrc Hnone))))).
Defined.

(** The reads of the superblock on the bench: one read on an f2fs, two on
    a blank device, one on a device too short for a record. *)
Lemma superblock_reads_witness :
  let K := Bench.kernel Bench.blank in
  let first := Some (repeat x00 44) in
  K (sys_open "/dev/x") tt = (3, tt)
  /\ K (sys_pread 3 44 1024) tt = (first, tt)
  /\ complete_read first = first
  /\ has_f2fs_magic (repeat x00 44) = false
  /\ offsets_read (calls K (read_f2fs_sb "/dev/x") tt) = [1024; 4096 + 1024]
  /\ offsets_read (calls K (get_f2fs_size "/dev/x") tt) = [1024; 4096 + 1024].
Proof.
  intros K first.
  assert (Hopen : K (sys_open "/dev/x") tt = (3, tt)) by (vm_compute; reflexivity).
  assert (Hfirst : K (sys_pread 3 44 1024) tt = (first, tt)) by (vm_compute; reflexivity).
  assert (Hc : complete_read first = first) by (vm_compute; reflexivity).
  assert (Hm : has_f2fs_magic (repeat x00 44) = false) by (vm_compute; reflexivity).
  destruct (@second_superblock_is_read_on_wrong_magic_only unit K tt tt tt "/dev/x" 3 first
              Hopen Hfirst) as [Hreads Hsame].
  exact (conj Hopen (conj Hfirst (conj Hc (conj Hm
           (conj Hreads (eq_trans Hsame Hreads)))))).
Defined.
